(** * Voriconazole plasma concentration estimator

    A shallow embedding of [PPCs_vcz.py]: the categorical encodings, the
    feature row handed to the clearance model, the pharmacokinetic
    back-calculation, the calibration floor and the steady-state advisory.

    Python's [float] is IEEE-754 binary64; it is modelled by Rocq's primitive
    [float], which is the same format with the same round-to-nearest-even
    operations.  The two pickled models are external: they are parameters of
    the development. *)

From Stdlib Require Import ZArith List Ascii String Bool Permutation Lia.
From Stdlib Require Import Reals Lra Psatz.
From Stdlib Require Import Floats.
Import ListNotations.

Set Warnings "-inexact-float".

Close Scope R_scope.

Local Open Scope string_scope.

(** ** Fragments of the Python runtime used by the script *)

Module Py.

(** Exceptions the script can meet.  [Raised] stands for whatever an
    external model call raises. *)
Inductive exn : Type :=
| ZeroDivisionError
| KeyError (key : string)
| IndexError
| Raised (cls : string).

Inductive result (A : Type) : Type :=
| Ok (a : A)
| Raise (e : exn).
Arguments Ok {A} a.
Arguments Raise {A} e.

Definition bind {A B : Type} (r : result A) (k : A -> result B) : result B :=
  match r with
  | Ok a => k a
  | Raise e => Raise e
  end.

(** [max(a, b)] on two floats: the running maximum starts at [a] and is
    replaced by [b] only when [b > a]. *)
Definition max (a b : float) : float :=
  if PrimFloat.ltb a b then b else a.

(** [a / b] on floats raises on a zero divisor (of either sign). *)
Definition truediv (a b : float) : result float :=
  if PrimFloat.eqb b 0%float then Raise ZeroDivisionError
  else Ok (PrimFloat.div a b).

(** A dict with string keys, as its items in insertion order. *)
Definition dict (V : Type) : Type := list (string * V).

Fixpoint get {V : Type} (d : dict V) (k : string) : option V :=
  match d with
  | [] => None
  | (k', v) :: d' => if String.eqb k k' then Some v else get d' k
  end.

(** [d[k]] *)
Definition getitem {V : Type} (d : dict V) (k : string) : result V :=
  match get d k with
  | Some v => Ok v
  | None => Raise (KeyError k)
  end.


(** [a[0]] on a one-dimensional array. *)
Definition first (a : list float) : result float :=
  match a with
  | x :: _ => Ok x
  | [] => Raise IndexError
  end.

End Py.

Notation "x <- c1 ;; c2" := (Py.bind c1 (fun x => c2))
  (at level 61, c1 at next level, right associativity).

(** ** The fragment of pandas used by the script *)

Module Pd.

(** A cell holds a Python [int] or a [float]. *)
Inductive cell : Type :=
| Int (z : Z)
| Float (f : float).

Record DataFrame : Type := mkDataFrame
  { columns : list string;
    values : list (list cell) }.

(** A key of [columns] that a record lacks gives a NaN cell. *)
Definition cell_of (r : Py.dict cell) (c : string) : cell :=
  match Py.get r c with
  | Some v => v
  | None => Float nan
  end.

(** [pd.DataFrame(records, columns=cols)]: one row per record, the cells
    taken by name in the order of [cols]. *)
Definition from_records (records : list (Py.dict cell)) (cols : list string)
  : DataFrame :=
  {| columns := cols;
     values := map (fun r => map (cell_of r) cols) records |}.

Fixpoint index (c : string) (cols : list string) : option nat :=
  match cols with
  | [] => None
  | c' :: cols' =>
      if String.eqb c c' then Some O else option_map S (index c cols')
  end.

(** The cell of the first row under the column named [c]. *)
Definition at0 (df : DataFrame) (c : string) : option cell :=
  match index c (columns df), values df with
  | Some i, row :: _ => nth_error row i
  | _, _ => None
  end.

End Pd.

(** ** The script *)

Module App.

Import Py.

(** The sidebar widgets' values. *)
Record sidebar : Type := mkSidebar
  { daydose : float;
    time_val : float;
    age : float;
    weight : float;
    alb : float;
    crp : float;
    tbil : float;
    sex_input : string;
    geno_label : string }.

Definition sex_options : list string := ["Male"; "Female"].

Definition geno_options : list string :=
  ["NM (Normal metabolizer)";
   "IM (Intermediate metabolizer)";
   "PM (Poor metabolizer)"].

(** [number_input] keeps a value between its [min_value] and [max_value]. *)
Definition between (lo hi x : float) : bool :=
  PrimFloat.leb lo x && PrimFloat.leb x hi.

(** What the widgets guarantee about their values. *)
Definition collected (w : sidebar) : Prop :=
  between 10 800 (daydose w) = true /\
  between 0 60 (time_val w) = true /\
  between 0 120 (age w) = true /\
  between 1 200 (weight w) = true /\
  between 5 60 (alb w) = true /\
  between 0 300 (crp w) = true /\
  between 0 500 (tbil w) = true /\
  In (sex_input w) sex_options /\
  In (geno_label w) geno_options.

Definition features_cl : list string :=
  ["CRP"; "ALB"; "GenotypingValue"; "Age"; "Sex"; "TBIL"; "Weight"].

Definition sex (sex_input : string) : Z :=
  if String.eqb sex_input "Male" then 1%Z else 2%Z.

Definition geno_map : dict Z :=
  [("NM (Normal metabolizer)", 1%Z);
   ("IM (Intermediate metabolizer)", 2%Z);
   ("PM (Poor metabolizer)", 3%Z)].

Definition GenotypingValue (geno_label : string) : result Z :=
  getitem geno_map geno_label.

(** Reading a label back from its code, for the round trip of the
    specification (the script itself never decodes): the option whose code
    it is. *)
Definition decode_sex (code : Z) : option string :=
  find (fun o => Z.eqb (sex o) code) sex_options.

Definition decode_geno (code : Z) : option string :=
  option_map fst (find (fun kv => Z.eqb (snd kv) code) geno_map).

Definition decode_cell (decode : Z -> option string) (c : option Pd.cell)
  : option string :=
  match c with
  | Some (Pd.Int z) => decode z
  | _ => None
  end.

Definition calculate_theoretical_conc (pred_cl dose_mg_per_day : float)
  : result float :=
  let pred_cl_safe := Py.max pred_cl 0.1%float in
  truediv dose_mg_per_day (PrimFloat.mul 24%float pred_cl_safe).

(** The dict literal of the script, in the order it is written. *)
Definition record (geno : Z) (w : sidebar) : dict Pd.cell :=
  [("GenotypingValue", Pd.Int geno);
   ("Weight", Pd.Float (weight w));
   ("Sex", Pd.Int (sex (sex_input w)));
   ("CRP", Pd.Float (crp w));
   ("ALB", Pd.Float (alb w));
   ("Age", Pd.Float (age w));
   ("TBIL", Pd.Float (tbil w))].

Definition input_row_of (r : dict Pd.cell) : Pd.DataFrame :=
  Pd.from_records [r] features_cl.

(** The row of the script.  The script looks the label up when it builds
    the sidebar, before the button is tested; the select box offers only
    keys of [geno_map], so the lookup raises nowhere, and it is kept here as
    the first thing the row needs. *)
Definition input_row (w : sidebar) : result Pd.DataFrame :=
  geno <- GenotypingValue (geno_label w) ;;
  Ok (input_row_of (record geno w)).

(** Calls that render something on the page.  A number shown through a
    format ([.3f] in a metric, [.1f] or [.3f] inside the text of a [write])
    is kept as the number, between the text before and after it.  The two
    columns of the layout are not modelled. *)
Inductive st : Type :=
| subheader (text : string)
| metric (label : string) (value : float)
| caption (text : string)
| markdown (text : string)
| write (before : string) (value : float) (after : string)
| warning (text : string)
| success (text : string).

(** A run of statements: it extends the page rendered so far and either
    goes on with a value or stops at an exception. *)
Definition run (A : Type) : Type := list st -> list st * result A.

Definition ret {A : Type} (a : A) : run A := fun page => (page, Ok a).

Definition seq {A B : Type} (c : run A) (k : A -> run B) : run B :=
  fun page =>
    match c page with
    | (page', Ok a) => k a page'
    | (page', Raise e) => (page', Raise e)
    end.

Definition call {A : Type} (r : result A) : run A := fun page => (page, r).

Notation "c1 >> c2" := (seq c1 (fun _ => c2))
  (at level 62, right associativity).

Definition show (s : st) : run unit := fun page => ((page ++ [s])%list, Ok tt).

Inductive advisory : Type :=
| BeforeSteadyState
| NearSteadyState.

Definition steady_state (time_val : float) : advisory :=
  if PrimFloat.ltb time_val 7%float then BeforeSteadyState
  else NearSteadyState.

Definition advisory_message (a : advisory) : st :=
  match a with
  | BeforeSteadyState =>
      warning ("This estimate is based on a sample collected before steady-state "
               ++ "conditions are typically achieved. Interpretation should be made with caution.")
  | NearSteadyState =>
      success ("The sampling time is consistent with near steady-state conditions "
               ++ "used during model calibration.")
  end.

(** The two texts of lines 180-188, as the script writes them. *)
Definition before_steady_state_text : string :=
  "This estimate is based on a sample collected before steady-state "
  ++ "conditions are typically achieved. Interpretation should be made with caution.".

Definition near_steady_state_text : string :=
  "The sampling time is consistent with near steady-state conditions "
  ++ "used during model calibration.".

(** The end of a line inside a triple-quoted literal. *)
Definition newline : string := String "010"%char EmptyString.

(** The literal of lines 194-198: it opens with the end of the line of its
    three quotes, and each of the three bullets ends its line. *)
Definition notes : string :=
  newline
  ++ "- This tool is intended to support research and clinical interpretation of voriconazole exposure."
  ++ newline
  ++ "- Results should be interpreted in conjunction with therapeutic drug monitoring and clinical judgment."
  ++ newline
  ++ "- The model has been developed and evaluated under specific assumptions, including near steady-state conditions."
  ++ newline.

(** The scenario of the specification: the widgets' default values. *)
Definition scenario : sidebar :=
  {| daydose := 400; time_val := 7; age := 50; weight := 60; alb := 32;
     crp := 30; tbil := 12; sex_input := "Male";
     geno_label := "NM (Normal metabolizer)" |}.

Section Models.

(** [model_cl.predict] and [calibrator.predict]: one prediction per row,
    or an exception.  A prediction is taken to be a one-dimensional array of
    floats, as a fitted regressor answers: [float()] of one of its elements
    (lines 119 and 148) is that element and does not raise. *)
Variable model_cl : Pd.DataFrame -> result (list float).
Variable calibrator : list (list float) -> result (list float).

(** The three numbers of one estimation, under the script's names. *)
Record estimate : Type := mkEstimate
  { pred_cl : float;
    theory_conc : float;
    pred_conc : float }.

(** Step 1: the first prediction of the clearance model on the row. *)
Definition clearance (w : sidebar) : result float :=
  row <- input_row w ;;
  out <- model_cl row ;;
  first out.

(** Step 3: the calibrator is given one sample of one feature; its first
    prediction is floored at 0.1. *)
Definition calibrate (theory : float) : result float :=
  out <- calibrator [[theory]] ;;
  raw <- first out ;;
  Ok (Py.max raw 0.1%float).

Definition estimation (w : sidebar) : result estimate :=
  cl <- clearance w ;;
  theory <- calculate_theoretical_conc cl (daydose w) ;;
  conc <- calibrate theory ;;
  Ok (mkEstimate cl theory conc).

Definition render (e : estimate) (w : sidebar) : run unit :=
  show (subheader "Estimated clearance") >>
  show (metric "Estimated CL/F (L/h)" (pred_cl e)) >>
  show (caption ("Clearance is estimated from genotype and clinical covariates. "
                 ++ "Dose is not included in this step.")) >>
  show (subheader "Estimated plasma concentration") >>
  show (metric "Voriconazole concentration (mg/L)" (pred_conc e)) >>
  show (markdown "---") >>
  show (subheader "Model interpretation") >>
  show (write "Daily dose: **" (daydose w) " mg/day**") >>
  show (write "Theoretical concentration (dose / [24 × CL]): **"
              (theory_conc e) " mg/L**") >>
  show (write "Time since initiation of therapy: **" (time_val w) " days**") >>
  show (advisory_message (steady_state (time_val w))).

(** The body of [if st.button(...)]: the three steps, then the page. *)
Definition estimation_block (w : sidebar) : run unit :=
  seq (call (estimation w)) (fun e => render e w).

(** The script from line 108 on: the lookup [geno_map[geno_label]] is made
    at the top level, before the button is tested, so a label outside the
    map stops the script there with KeyError, pressed or not; then the block
    runs when the button was pressed, and the notes close the page. *)
Definition estimate_and_notes (pressed : bool) (w : sidebar) : run unit :=
  call (GenotypingValue (geno_label w)) >>
  (if pressed then estimation_block w else ret tt) >>
  show (markdown "### Notes") >>
  show (markdown notes).

End Models.

(** What [render] adds to the page. *)
Definition rendered (e : estimate) (w : sidebar) : list st :=
  [subheader "Estimated clearance";
   metric "Estimated CL/F (L/h)" (pred_cl e);
   caption ("Clearance is estimated from genotype and clinical covariates. "
            ++ "Dose is not included in this step.");
   subheader "Estimated plasma concentration";
   metric "Voriconazole concentration (mg/L)" (pred_conc e);
   markdown "---";
   subheader "Model interpretation";
   write "Daily dose: **" (daydose w) " mg/day**";
   write "Theoretical concentration (dose / [24 × CL]): **"
         (theory_conc e) " mg/L**";
   write "Time since initiation of therapy: **" (time_val w) " days**";
   advisory_message (steady_state (time_val w))].

End App.

(** Stand-ins for the two pickled models, for concrete runs: a clearance
    model that answers [cl] for every row, and calibrators that answer [out]
    for every sample or fail. *)
Module Stub.

Import Py.

Definition model_cl (cl : float) : Pd.DataFrame -> result (list float) :=
  fun _ => Ok [cl].

Definition calibrator (out : float) : list (list float) -> result (list float) :=
  fun _ => Ok [out].

Definition failing {A : Type} (cls : string) : A -> result (list float) :=
  fun _ => Raise (Raised cls).

End Stub.

(** ** Binary64 rounding, for the proofs about the arithmetic

    The operations of the primitive [float] are specified by [SpecFloat]:
    a product or a quotient is the exact result, cut to 53 bits by
    [binary_round_aux].  The definitions below give the vocabulary in which
    that cut is shown to be monotone. *)

Module Binary64.

Local Open Scope Z_scope.

(** 2 to the power [e], as a real. *)
Definition bpow (e : Z) : R := powerRZ 2 e.

(** Where the real [v] lies in the interval from [m * 2^e] to
    [(m + 1) * 2^e]: on its lower end, below, at or above its middle. *)
Inductive located (m : Z) (e : Z) (v : R) : location -> Prop :=
| located_exact :
    v = (IZR m * bpow e)%R -> located m e v loc_Exact
| located_lt :
    (IZR m * bpow e < v < (IZR m + / 2) * bpow e)%R ->
    located m e v (loc_Inexact Lt)
| located_eq :
    v = ((IZR m + / 2) * bpow e)%R -> located m e v (loc_Inexact Eq)
| located_gt :
    ((IZR m + / 2) * bpow e < v < (IZR m + 1) * bpow e)%R ->
    located m e v (loc_Inexact Gt).

(** The number with mantissa [M] (at most [2^53]) and exponent [E], brought
    back to 53 bits, or to infinity above the largest exponent. *)
Definition rounded (s : bool) (M E : Z) : spec_float :=
  if M =? 0 then S754_zero s
  else if M <? 2 ^ 53 then
         if E <=? 971 then S754_finite s (Z.to_pos M) E else S754_infinity s
       else
         if E + 1 <=? 971 then S754_finite s (Z.to_pos (2 ^ 52)) (E + 1)
         else S754_infinity s.

(** A key whose lexicographic order is the order of the numbers. *)
Definition key (x : spec_float) : Z * (Z * Z) :=
  match x with
  | S754_zero _ => (0, (0, 0))
  | S754_infinity false => (2, (0, 0))
  | S754_infinity true => (-2, (0, 0))
  | S754_nan => (0, (0, 0))
  | S754_finite false m e => (1, (e, Z.pos m))
  | S754_finite true m e => (-1, (- e, - Z.pos m))
  end.

Definition key_lt (a b : Z * (Z * Z)) : Prop :=
  fst a < fst b \/
  (fst a = fst b /\
   (fst (snd a) < fst (snd b) \/
    (fst (snd a) = fst (snd b) /\ snd (snd a) < snd (snd b)))).

End Binary64.

(** ** Dicts: lookup does not depend on the order of the items *)

Section DictFacts.

Context {V : Type}.
Implicit Types d : Py.dict V.





End DictFacts.

(** ** Feature assembly *)

Module Features.

Import Py App.





(** The row of the script itself, whenever the label is a key of the map. *)
Lemma input_row_eq (w : sidebar) :
  input_row w =
    (geno <- GenotypingValue (geno_label w) ;;
     Ok {| Pd.columns :=
             ["CRP"; "ALB"; "GenotypingValue"; "Age"; "Sex"; "TBIL"; "Weight"];
           Pd.values :=
             [[Pd.Float (crp w); Pd.Float (alb w); Pd.Int geno;
               Pd.Float (age w); Pd.Int (sex (sex_input w));
               Pd.Float (tbil w); Pd.Float (weight w)]] |}).
Proof.
  unfold input_row. destruct (GenotypingValue (geno_label w)); reflexivity.
Qed.

(** C4: Male is encoded as 1 and Female as 2; the normal, intermediate and
    poor metabolizer labels as 1, 2 and 3; and for every sidebar these are
    the codes found in the Sex and GenotypingValue cells of the row. *)
Theorem categorical_encodings :
  sex "Male" = 1%Z /\ sex "Female" = 2%Z /\
  GenotypingValue "NM (Normal metabolizer)" = Ok 1%Z /\
  GenotypingValue "IM (Intermediate metabolizer)" = Ok 2%Z /\
  GenotypingValue "PM (Poor metabolizer)" = Ok 3%Z /\
  forall w : sidebar,
    match input_row w with
    | Ok row =>
        Pd.at0 row "Sex" = Some (Pd.Int (sex (sex_input w))) /\
        exists geno, GenotypingValue (geno_label w) = Ok geno /\
                     Pd.at0 row "GenotypingValue" = Some (Pd.Int geno)
    | Raise e => GenotypingValue (geno_label w) = Raise e
    end.
Proof.
  repeat (split; [reflexivity|]).
  intros w. rewrite input_row_eq.
  destruct (GenotypingValue (geno_label w)) as [geno|e]; simpl.
  - split; [reflexivity|]. exists geno. split; reflexivity.
  - reflexivity.
Qed.

Lemma sex_options_cases (s : string) :
  In s sex_options -> s = "Male" \/ s = "Female".
Proof. simpl. intuition. Qed.

Lemma geno_options_cases (s : string) :
  In s geno_options ->
  s = "NM (Normal metabolizer)" \/ s = "IM (Intermediate metabolizer)" \/
  s = "PM (Poor metabolizer)".
Proof. simpl. intuition. Qed.

(** C8: on the labels the two select boxes offer, the encoding loses
    nothing: the row is built, and decoding its Sex and GenotypingValue
    cells gives back the labels that were selected. *)
Theorem encoding_round_trip (w : sidebar) :
  In (sex_input w) sex_options ->
  In (geno_label w) geno_options ->
  exists row,
    input_row w = Ok row /\
    decode_cell decode_sex (Pd.at0 row "Sex") = Some (sex_input w) /\
    decode_cell decode_geno (Pd.at0 row "GenotypingValue") =
      Some (geno_label w).
Proof.
  intros Hs Hg. rewrite input_row_eq.
  apply sex_options_cases in Hs. apply geno_options_cases in Hg.
  destruct Hs as [-> | ->], Hg as [-> | [-> | ->]];
    eexists; (split; [reflexivity|]); split; reflexivity.
Qed.

Lemma encoding_round_trip_witness :
  exists row,
    input_row scenario = Ok row /\
    decode_cell decode_sex (Pd.at0 row "Sex") = Some "Male" /\
    decode_cell decode_geno (Pd.at0 row "GenotypingValue") =
      Some "NM (Normal metabolizer)".
Proof.
  apply (encoding_round_trip scenario); simpl; auto.
Defined.

End Features.

(** ** The estimation block *)

Module Pipeline.

Import Py App.

Section Run.

Variable model_cl : Pd.DataFrame -> result (list float).
Variable calibrator : list (list float) -> result (list float).

Lemma render_page (e : estimate) (w : sidebar) (page : list st) :
  render e w page = ((page ++ rendered e w)%list, Ok tt).
Proof.
  unfold render, seq, show, rendered.
  repeat (rewrite <- app_assoc; simpl). reflexivity.
Qed.

Lemma estimation_block_ok (w : sidebar) (page : list st) (e : estimate) :
  estimation model_cl calibrator w = Ok e ->
  estimation_block model_cl calibrator w page =
    ((page ++ rendered e w)%list, Ok tt).
Proof.
  intros H. unfold estimation_block, seq, call. rewrite H.
  apply render_page.
Qed.

Lemma estimation_block_raise (w : sidebar) (page : list st) (x : exn) :
  estimation model_cl calibrator w = Raise x ->
  estimation_block model_cl calibrator w page = (page, Raise x).
Proof.
  intros H. unfold estimation_block, seq, call. now rewrite H.
Qed.

(** The steps of one estimation, in order. *)
Lemma estimation_steps (w : sidebar) :
  estimation model_cl calibrator w =
    match clearance model_cl w with
    | Raise x => Raise x
    | Ok cl =>
        match calculate_theoretical_conc cl (daydose w) with
        | Raise x => Raise x
        | Ok theory =>
            match calibrate calibrator theory with
            | Raise x => Raise x
            | Ok conc => Ok (mkEstimate cl theory conc)
            end
        end
    end.
Proof. reflexivity. Qed.

(** A label outside the map stops the three steps at the lookup. *)
Lemma estimation_bad_label (w : sidebar) (x : exn) :
  GenotypingValue (geno_label w) = Raise x ->
  estimation model_cl calibrator w = Raise x.
Proof.
  intros H. unfold estimation, clearance, input_row. now rewrite H.
Qed.

Lemma estimate_and_notes_bad_label (pressed : bool) (w : sidebar)
    (page : list st) (x : exn) :
  GenotypingValue (geno_label w) = Raise x ->
  estimate_and_notes model_cl calibrator pressed w page = (page, Raise x).
Proof.
  intros H. unfold estimate_and_notes, seq, call. now rewrite H.
Qed.

Lemma estimate_and_notes_pressed (w : sidebar) (page : list st) (x : exn) :
  estimation_block model_cl calibrator w page = (page, Raise x) ->
  estimate_and_notes model_cl calibrator true w page = (page, Raise x).
Proof.
  intros H.
  destruct (GenotypingValue (geno_label w)) as [g|y] eqn:G.
  - unfold estimate_and_notes, seq, call. now rewrite G, H.
  - rewrite (estimation_block_raise w page y (estimation_bad_label w y G)) in H.
    assert (E : y = x) by congruence. subst y.
    now apply estimate_and_notes_bad_label.
Qed.


(** What the successful block shows before its last element. *)
Lemma rendered_split (e : estimate) (w : sidebar) :
  rendered e w =
  (removelast (rendered e w)
   ++ [advisory_message (steady_state (time_val w))])%list /\
  Forall (fun s => match s with
                   | warning _ | success _ => False
                   | _ => True
                   end) (removelast (rendered e w)).
Proof.
  split; [reflexivity|]. simpl. repeat constructor.
Qed.

End Run.

(** The default values of the widgets lie in the widgets' ranges. *)
Lemma scenario_collected : collected scenario.
Proof.
  unfold collected, sex_options, geno_options. simpl In.
  repeat split; try reflexivity; auto.
Qed.

(** A calibrator that fails: the page stays as it was, and neither the
    clearance nor the notes are shown. *)
Example calibrator_failure :
  estimate_and_notes (Stub.model_cl 0.5) (Stub.failing "ValueError") true
    scenario [] = ([], Raise (Raised "ValueError")).
Proof. reflexivity. Qed.

(** C5: the advisory is BeforeSteadyState, shown as the warning of lines
    180-183, exactly when the time since initiation is below 7, and
    NearSteadyState, shown as the success message of lines 185-188,
    otherwise, for every value of the widget (so for every value in
    [0, 60]); 6.999 gives BeforeSteadyState and its warning, 7.0 gives
    NearSteadyState and its success message; and a successful estimation
    closes the page with that one message, none of the elements before it
    being a warning or a success message. *)
Theorem advisory_threshold :
  (forall t : float,
      (steady_state t = BeforeSteadyState <-> PrimFloat.ltb t 7 = true) /\
      (steady_state t = NearSteadyState <-> PrimFloat.ltb t 7 = false) /\
      (advisory_message (steady_state t) = warning before_steady_state_text
       <-> PrimFloat.ltb t 7 = true) /\
      (advisory_message (steady_state t) = success near_steady_state_text
       <-> PrimFloat.ltb t 7 = false)) /\
  steady_state 6.999 = BeforeSteadyState /\
  advisory_message (steady_state 6.999) = warning before_steady_state_text /\
  steady_state 7.0 = NearSteadyState /\
  advisory_message (steady_state 7.0) = success near_steady_state_text /\
  forall model_cl calibrator (w : sidebar) (page : list st),
    match estimation model_cl calibrator w with
    | Ok e =>
        exists shown,
          estimation_block model_cl calibrator w page =
            ((page ++ shown
                   ++ [if PrimFloat.ltb (time_val w) 7
                       then warning before_steady_state_text
                       else success near_steady_state_text])%list,
             Ok tt) /\
          Forall (fun s => match s with
                           | warning _ | success _ => False
                           | _ => True
                           end) shown
    | Raise x => True
    end.
Proof.
  split; [|repeat (split; [reflexivity|])].
  - intros t. unfold steady_state.
    destruct (PrimFloat.ltb t 7); cbn [advisory_message];
      repeat split; intros; try reflexivity; discriminate.
  - intros model_cl calibrator w page.
    destruct (estimation model_cl calibrator w) as [e|x] eqn:E; [|exact I].
    rewrite (estimation_block_ok _ _ _ _ _ E).
    destruct (rendered_split e w) as [R F].
    exists (removelast (rendered e w)). split; [|exact F].
    rewrite R at 1. unfold steady_state.
    now destruct (PrimFloat.ltb (time_val w) 7).
Qed.

(** C6: two sidebars that agree on the dose and on every covariate, and may
    differ in the time since initiation, give the same outcome of the three
    steps: the same clearance, theoretical concentration and calibrated
    concentration, or the same exception. *)
Theorem numbers_ignore_time model_cl calibrator (w1 w2 : sidebar) :
  daydose w1 = daydose w2 ->
  age w1 = age w2 ->
  weight w1 = weight w2 ->
  alb w1 = alb w2 ->
  crp w1 = crp w2 ->
  tbil w1 = tbil w2 ->
  sex_input w1 = sex_input w2 ->
  geno_label w1 = geno_label w2 ->
  estimation model_cl calibrator w1 = estimation model_cl calibrator w2.
Proof.
  destruct w1, w2; simpl; intros; subst; reflexivity.
Qed.

Lemma numbers_ignore_time_witness :
  estimation (Stub.model_cl 5) (Stub.calibrator 3) scenario =
  estimation (Stub.model_cl 5) (Stub.calibrator 3)
    {| daydose := 400; time_val := 3; age := 50; weight := 60; alb := 32;
       crp := 30; tbil := 12; sex_input := "Male";
       geno_label := "NM (Normal metabolizer)" |}.
Proof.
  apply (numbers_ignore_time (Stub.model_cl 5) (Stub.calibrator 3));
    reflexivity.
Defined.

(** C7: two sidebars that agree on the seven covariates of the clearance
    model, and may differ in the daily dose (and in the time), hand the same
    row to the model and get the same predicted clearance; the dose is read
    only by the back-calculation. *)
Theorem clearance_ignores_dose model_cl (w1 w2 : sidebar) :
  age w1 = age w2 ->
  weight w1 = weight w2 ->
  alb w1 = alb w2 ->
  crp w1 = crp w2 ->
  tbil w1 = tbil w2 ->
  sex_input w1 = sex_input w2 ->
  geno_label w1 = geno_label w2 ->
  input_row w1 = input_row w2 /\
  clearance model_cl w1 = clearance model_cl w2.
Proof.
  destruct w1, w2; simpl; intros; subst; split; reflexivity.
Qed.

Lemma clearance_ignores_dose_witness :
  input_row scenario =
  input_row {| daydose := 200; time_val := 7; age := 50; weight := 60;
               alb := 32; crp := 30; tbil := 12; sex_input := "Male";
               geno_label := "NM (Normal metabolizer)" |} /\
  clearance (Stub.model_cl 5) scenario =
  clearance (Stub.model_cl 5)
    {| daydose := 200; time_val := 7; age := 50; weight := 60;
       alb := 32; crp := 30; tbil := 12; sex_input := "Male";
       geno_label := "NM (Normal metabolizer)" |}.
Proof.
  apply (clearance_ignores_dose (Stub.model_cl 5)); reflexivity.
Defined.

(** C9: when the clearance prediction, the back-calculation or the
    calibration raises, the block stops with that very exception, the page
    is left as it was and the rest of the script is not run; and the block
    either shows nothing or shows the clearance together with the calibrated
    concentration. *)
Theorem failure_aborts_estimation model_cl calibrator (w : sidebar)
    (page : list st) :
  (forall x, clearance model_cl w = Raise x ->
             estimation_block model_cl calibrator w page = (page, Raise x)) /\
  (forall cl x, clearance model_cl w = Ok cl ->
                calculate_theoretical_conc cl (daydose w) = Raise x ->
                estimation_block model_cl calibrator w page = (page, Raise x)) /\
  (forall cl theory x,
      clearance model_cl w = Ok cl ->
      calculate_theoretical_conc cl (daydose w) = Ok theory ->
      calibrate calibrator theory = Raise x ->
      estimation_block model_cl calibrator w page = (page, Raise x)) /\
  (forall x,
      estimation_block model_cl calibrator w page = (page, Raise x) ->
      estimate_and_notes model_cl calibrator true w page = (page, Raise x)) /\
  ((exists x, estimation_block model_cl calibrator w page = (page, Raise x)) \/
   (exists e,
       estimation model_cl calibrator w = Ok e /\
       estimation_block model_cl calibrator w page =
         ((page ++ rendered e w)%list, Ok tt) /\
       In (metric "Estimated CL/F (L/h)" (pred_cl e)) (rendered e w) /\
       In (metric "Voriconazole concentration (mg/L)" (pred_conc e))
          (rendered e w))).
Proof.
  repeat split.
  - intros x H. apply estimation_block_raise.
    rewrite estimation_steps. now rewrite H.
  - intros cl x H1 H2. apply estimation_block_raise.
    rewrite estimation_steps. now rewrite H1, H2.
  - intros cl theory x H1 H2 H3. apply estimation_block_raise.
    rewrite estimation_steps. now rewrite H1, H2, H3.
  - intros x H. now apply estimate_and_notes_pressed.
  - destruct (estimation model_cl calibrator w) as [e|x] eqn:E.
    + right. exists e. split; [reflexivity|].
      split; [now apply estimation_block_ok|]. simpl. tauto.
    + left. exists x. now apply estimation_block_raise.
Qed.

End Pipeline.

(** ** Binary64 arithmetic: order, rounding, products and quotients *)

Module Binary64Facts.

Import Binary64.

Local Open Scope Z_scope.

(** *** Powers of two *)

Lemma bpow_pos e : (0 < bpow e)%R.
Proof. apply powerRZ_lt. lra. Qed.

Lemma bpow_add a b : bpow (a + b) = (bpow a * bpow b)%R.
Proof. apply powerRZ_add. lra. Qed.

Lemma bpow_succ e : bpow (e + 1) = (2 * bpow e)%R.
Proof. rewrite bpow_add. unfold bpow at 2. simpl. lra. Qed.

Lemma bpow_IZR n : 0 <= n -> bpow n = IZR (2 ^ n).
Proof.
  intros Hn. unfold bpow.
  rewrite <- (Z2Nat.id n Hn) at 1 2.
  rewrite <- pow_powerRZ, <- pow_IZR. reflexivity.
Qed.

Lemma bpow_le a b : a <= b -> (bpow a <= bpow b)%R.
Proof.
  intros H. replace b with (a + (b - a)) by ring.
  rewrite bpow_add, (bpow_IZR (b - a)) by lia.
  assert (H0 : 1 <= 2 ^ (b - a))
    by (assert (0 < 2 ^ (b - a)) by (apply Z.pow_pos_nonneg; lia); lia).
  apply IZR_le in H0. pose proof (bpow_pos a). nra.
Qed.

(** *** The number of binary digits of a mantissa *)

Lemma digits2_pos_bounds (p : positive) :
  2 ^ (Z.pos (digits2_pos p) - 1) <= Z.pos p < 2 ^ Z.pos (digits2_pos p).
Proof.
  induction p as [p IH|p IH|]; simpl digits2_pos.
  - rewrite Pos2Z.inj_succ. replace (Z.succ (Z.pos (digits2_pos p)) - 1) with (Z.succ (Z.pos (digits2_pos p) - 1)) by lia.
    rewrite !Z.pow_succ_r by lia. lia.
  - rewrite Pos2Z.inj_succ. replace (Z.succ (Z.pos (digits2_pos p)) - 1) with (Z.succ (Z.pos (digits2_pos p) - 1)) by lia.
    rewrite !Z.pow_succ_r by lia. lia.
  - simpl. lia.
Qed.

Lemma Zdigits2_bounds (m : Z) :
  0 < m -> 2 ^ (Zdigits2 m - 1) <= m < 2 ^ Zdigits2 m.
Proof. destruct m as [|p|p]; try lia. intros _. apply digits2_pos_bounds. Qed.

(** *** Shifting a mantissa to the right

    The record of a shift keeps the mantissa, the last bit shifted out and
    whether a bit was lost before it; together they say where the exact
    value lies. *)

Lemma loc_of_record_of_loc m l :
  loc_of_shr_record (shr_record_of_loc m l) = l /\
  shr_m (shr_record_of_loc m l) = m.
Proof. destruct l as [|[| |]]; split; reflexivity. Qed.

Lemma located_cases m e v l :
  located m e v l ->
  match l with
  | loc_Exact => v = (IZR m * bpow e)%R
  | loc_Inexact Lt => (IZR m * bpow e < v < (IZR m + /2) * bpow e)%R
  | loc_Inexact Eq => v = ((IZR m + /2) * bpow e)%R
  | loc_Inexact Gt => ((IZR m + /2) * bpow e < v < (IZR m + 1) * bpow e)%R
  end.
Proof. intros H; destruct H; assumption. Qed.

Lemma located_intro m e v l :
  match l with
  | loc_Exact => v = (IZR m * bpow e)%R
  | loc_Inexact Lt => (IZR m * bpow e < v < (IZR m + /2) * bpow e)%R
  | loc_Inexact Eq => v = ((IZR m + /2) * bpow e)%R
  | loc_Inexact Gt => ((IZR m + /2) * bpow e < v < (IZR m + 1) * bpow e)%R
  end -> located m e v l.
Proof. destruct l as [|[| |]]; intros H; constructor; exact H. Qed.

Lemma located_range m e v l :
  located m e v l -> (IZR m * bpow e <= v < (IZR m + 1) * bpow e)%R.
Proof.
  pose proof (bpow_pos e). intros Hl; destruct Hl; lra.
Qed.

Lemma shr_1_located mrs e v :
  0 <= shr_m mrs ->
  located (shr_m mrs) e v (loc_of_shr_record mrs) ->
  located (shr_m (shr_1 mrs)) (e + 1) v (loc_of_shr_record (shr_1 mrs)) /\
  shr_m (shr_1 mrs) = shr_m mrs / 2.
Proof.
  destruct mrs as [m r s]. cbn [shr_m]. intros Hm Hl.
  apply located_cases in Hl. pose proof (bpow_pos e) as Hb.
  destruct m as [|p|p]; [| |lia].
  - split; [|reflexivity]. apply located_intro. rewrite bpow_succ.
    destruct r, s; simpl in *; lra.
  - destruct p as [p|p|].
    + split.
      * apply located_intro. rewrite bpow_succ.
        rewrite Pos2Z.inj_xI, plus_IZR, mult_IZR in Hl.
        destruct r, s; simpl in *; lra.
      * simpl shr_m. rewrite Pos2Z.inj_xI.
        apply Z.div_unique with 1; lia.
    + split.
      * apply located_intro. rewrite bpow_succ.
        rewrite Pos2Z.inj_xO, mult_IZR in Hl.
        destruct r, s; simpl in *; lra.
      * simpl shr_m. rewrite Pos2Z.inj_xO.
        apply Z.div_unique with 0; lia.
    + split; [|reflexivity].
      apply located_intro. rewrite bpow_succ.
      destruct r, s; simpl in *; lra.
Qed.

Lemma iter_shr_1_located p : forall mrs e v,
  0 <= shr_m mrs ->
  located (shr_m mrs) e v (loc_of_shr_record mrs) ->
  located (shr_m (iter_pos shr_1 p mrs)) (e + Z.pos p) v
          (loc_of_shr_record (iter_pos shr_1 p mrs)) /\
  shr_m (iter_pos shr_1 p mrs) = shr_m mrs / 2 ^ Z.pos p.
Proof.
  assert (Hnn : forall m n, 0 <= m -> 0 <= m / 2 ^ Z.pos n).
  { intros m n Hm. apply Z.div_pos; [exact Hm|]. apply Z.pow_pos_nonneg; lia. }
  induction p as [p IH|p IH|]; intros mrs e v Hm Hl; simpl iter_pos.
  - destruct (shr_1_located mrs e v Hm Hl) as [L1 E1].
    assert (H1 : 0 <= shr_m (shr_1 mrs)) by (rewrite E1; apply Z.div_pos; lia).
    destruct (IH _ _ _ H1 L1) as [L2 E2].
    assert (H2 : 0 <= shr_m (iter_pos shr_1 p (shr_1 mrs)))
      by (rewrite E2; now apply Hnn).
    destruct (IH _ _ _ H2 L2) as [L3 E3].
    split.
    + replace (e + Z.pos p~1) with (e + 1 + Z.pos p + Z.pos p) by lia. exact L3.
    + rewrite E3, E2, E1.
      rewrite !Z.div_div by (try apply Z.pow_pos_nonneg; lia).
      f_equal.
      replace (Z.pos p~1) with (Z.succ (Z.pos p + Z.pos p)) by lia.
      rewrite Z.pow_succ_r, Z.pow_add_r by lia. ring.
  - destruct (IH _ _ _ Hm Hl) as [L2 E2].
    assert (H2 : 0 <= shr_m (iter_pos shr_1 p mrs))
      by (rewrite E2; now apply Hnn).
    destruct (IH _ _ _ H2 L2) as [L3 E3].
    split.
    + replace (e + Z.pos p~0) with (e + Z.pos p + Z.pos p) by lia. exact L3.
    + rewrite E3, E2.
      rewrite !Z.div_div by (try apply Z.pow_pos_nonneg; lia).
      f_equal. rewrite <- !Z.pow_add_r by lia. f_equal. lia.
  - apply shr_1_located; assumption.
Qed.

(** *** The cut to 53 bits

    [binary_round_aux] shifts the mantissa to the exponent of the format,
    rounds it to nearest, ties to even, and renormalises after a carry. *)

Lemma fexp64_eq k : fexp prec emax k = Z.max (k - 53) (-1074).
Proof. reflexivity. Qed.

Lemma shr_fexp_located m e l v :
  0 <= m -> e <= fexp prec emax (Zdigits2 m + e) -> located m e v l ->
  exists mrs,
    shr_fexp prec emax m e l = (mrs, fexp prec emax (Zdigits2 m + e)) /\
    located (shr_m mrs) (fexp prec emax (Zdigits2 m + e)) v (loc_of_shr_record mrs) /\
    shr_m mrs = m / 2 ^ (fexp prec emax (Zdigits2 m + e) - e).
Proof.
  intros Hm He Hl. unfold shr_fexp, shr.
  set (E := fexp prec emax (Zdigits2 m + e)) in *.
  destruct (loc_of_record_of_loc m l) as [Hloc Hrm].
  destruct (E - e) as [|p|p] eqn:En; [| |lia].
  - exists (shr_record_of_loc m l). replace E with e by lia.
    rewrite Hloc, Hrm, Z.div_1_r. auto.
  - exists (iter_pos shr_1 p (shr_record_of_loc m l)).
    destruct (iter_shr_1_located p (shr_record_of_loc m l) e v) as [L Q].
    + rewrite Hrm. lia.
    + rewrite Hloc, Hrm. exact Hl.
    + replace (e + Z.pos p) with E in * by lia. rewrite Hrm in Q. auto.
Qed.

Lemma round_nearest_even_range m l :
  m <= round_nearest_even m l <= m + 1.
Proof.
  destruct l as [|[| |]]; simpl; try lia. destruct (Z.even m); lia.
Qed.

Lemma shr_fexp_small M E :
  0 <= M < 2 ^ 53 -> -1074 <= E ->
  shr_fexp prec emax M E loc_Exact = (Build_shr_record M false false, E).
Proof.
  intros HM HE. unfold shr_fexp, shr. rewrite fexp64_eq. simpl shr_record_of_loc.
  assert (Hd : Zdigits2 M <= 53).
  { destruct (Z.eq_dec M 0) as [->|Hn]; [simpl; lia|].
    assert (Hp : 0 < M) by lia. pose proof (Zdigits2_bounds M Hp) as [Hl _].
    destruct (Z_le_gt_dec (Zdigits2 M) 53); [assumption|].
    assert (2 ^ 53 <= 2 ^ (Zdigits2 M - 1)) by (apply Z.pow_le_mono_r; lia). lia. }
  destruct (Z.max (Zdigits2 M + E - 53) (-1074) - E) eqn:En; try reflexivity. lia.
Qed.

Lemma shr_fexp_carry E :
  -1074 <= E ->
  shr_fexp prec emax (2 ^ 53) E loc_Exact =
  (Build_shr_record (2 ^ 52) false false, E + 1).
Proof.
  intros HE. unfold shr_fexp, shr. rewrite fexp64_eq.
  replace (Zdigits2 (2 ^ 53)) with 54 by reflexivity.
  replace (Z.max (54 + E - 53) (-1074) - E) with 1 by lia.
  reflexivity.
Qed.

(** What [binary_round_aux] computes on a mantissa that is not negative. *)
Lemma binary_round_aux_rounded s m e l v :
  0 <= m -> e <= fexp prec emax (Zdigits2 m + e) -> located m e v l ->
  exists m' l',
    located m' (fexp prec emax (Zdigits2 m + e)) v l' /\
    0 <= m' < 2 ^ 53 /\
    (-1074 < fexp prec emax (Zdigits2 m + e) -> 2 ^ 52 <= m') /\
    binary_round_aux prec emax s m e l =
      rounded s (round_nearest_even m' l') (fexp prec emax (Zdigits2 m + e)).
Proof.
  intros Hm He Hl.
  destruct (shr_fexp_located m e l v Hm He Hl) as (mrs & Hs & HL & Hq).
  set (E := fexp prec emax (Zdigits2 m + e)) in *.
  exists (shr_m mrs), (loc_of_shr_record mrs).
  assert (HE : -1074 <= E) by (unfold E; rewrite fexp64_eq; lia).
  assert (Hm' : 0 <= shr_m mrs < 2 ^ 53).
  { rewrite Hq.
    assert (Hp : 0 < 2 ^ (E - e)) by (apply Z.pow_pos_nonneg; lia).
    split; [apply Z.div_pos; lia|].
    destruct (Z.eq_dec m 0) as [->|Hm0]; [rewrite Z.div_0_l by lia; reflexivity|].
    assert (Hmp : 0 < m) by lia.
    pose proof (Zdigits2_bounds m Hmp) as [_ Hu].
    apply Z.div_lt_upper_bound; [exact Hp|].
    rewrite <- Z.pow_add_r by lia.
    eapply Z.lt_le_trans; [exact Hu|]. apply Z.pow_le_mono_r; [lia|].
    unfold E. rewrite fexp64_eq. lia. }
  assert (Hn : -1074 < E -> 2 ^ 52 <= shr_m mrs).
  { intros Hlt. rewrite Hq.
    destruct (Z.eq_dec m 0) as [Hm0|Hm0].
    { exfalso. revert Hlt He. unfold E. rewrite Hm0, !fexp64_eq. simpl Zdigits2. lia. }
    assert (Hmp : 0 < m) by lia.
    pose proof (Zdigits2_bounds m Hmp) as [Hl' _].
    assert (En : E - e = Zdigits2 m - 53)
      by (revert Hlt; unfold E; rewrite fexp64_eq; lia).
    rewrite En. assert (0 <= Zdigits2 m - 53) by lia.
    apply Z.div_le_lower_bound; [apply Z.pow_pos_nonneg; lia|].
    rewrite <- Z.pow_add_r by lia.
    replace (Zdigits2 m - 53 + 52) with (Zdigits2 m - 1) by lia. exact Hl'. }
  split; [exact HL|]. split; [exact Hm'|]. split; [exact Hn|].
  unfold binary_round_aux. rewrite Hs.
  pose proof (round_nearest_even_range (shr_m mrs) (loc_of_shr_record mrs)) as HM.
  set (M := round_nearest_even (shr_m mrs) (loc_of_shr_record mrs)) in *.
  unfold rounded.
  destruct (Z.eq_dec M (2 ^ 53)) as [->|Hne].
  - rewrite (shr_fexp_carry E HE). reflexivity.
  - rewrite (shr_fexp_small M E) by lia. cbn [shr_m].
    destruct M as [|p|p]; [reflexivity| |lia].
    replace (Z.pos p <? 2 ^ 53) with true by (symmetry; apply Z.ltb_lt; lia).
    reflexivity.
Qed.

(** *** The cut is monotone in the exact value *)

Lemma SFcompare_finite (s1 s2 : bool) (m1 m2 : positive) (e1 e2 : Z) :
  SFcompare (S754_finite s1 m1 e1) (S754_finite s2 m2 e2) =
  Some match s1, s2 with
       | true, false => Lt
       | false, true => Gt
       | false, false =>
           match (e1 ?= e2)%Z with
           | Lt => Lt | Gt => Gt | Eq => (m1 ?= m2)%positive
           end
       | true, true =>
           match (e1 ?= e2)%Z with
           | Lt => Gt | Gt => Lt | Eq => CompOpp (m1 ?= m2)%positive
           end
       end.
Proof. reflexivity. Qed.

Lemma SFleb_finite_pos m1 e1 m2 e2 :
  e1 < e2 \/ (e1 = e2 /\ (m1 <= m2)%positive) ->
  SFleb (S754_finite false m1 e1) (S754_finite false m2 e2) = true.
Proof.
  unfold SFleb. rewrite SFcompare_finite.
  intros [H|[-> H]].
  - apply Z.compare_lt_iff in H. now rewrite H.
  - rewrite Z.compare_refl. unfold Pos.le in H.
    destruct (m1 ?= m2)%positive; congruence.
Qed.

Lemma rounded_le_same E M1 M2 :
  0 <= M1 <= M2 -> M2 <= 2 ^ 53 ->
  SFleb (rounded false M1 E) (rounded false M2 E) = true.
Proof.
  intros H1 H2. unfold rounded.
  assert (P52 : Z.pos (Z.to_pos (2 ^ 52)) = 2 ^ 52) by reflexivity.
  destruct (Z.eqb_spec M1 0), (Z.eqb_spec M2 0), (Z.ltb_spec M1 (2 ^ 53)),
    (Z.ltb_spec M2 (2 ^ 53)), (Z.leb_spec E 971), (Z.leb_spec (E + 1) 971);
    try lia; try reflexivity;
    apply SFleb_finite_pos; lia.
Qed.

Lemma rounded_le_next E1 E2 M1 M2 :
  E1 < E2 -> 0 <= M1 <= 2 ^ 53 -> 2 ^ 52 <= M2 <= 2 ^ 53 ->
  SFleb (rounded false M1 E1) (rounded false M2 E2) = true.
Proof.
  intros HE H1 H2. unfold rounded.
  assert (P52 : Z.pos (Z.to_pos (2 ^ 52)) = 2 ^ 52) by reflexivity.
  assert (0 < 2 ^ 52) by reflexivity.
  destruct (Z.eqb_spec M1 0), (Z.eqb_spec M2 0), (Z.ltb_spec M1 (2 ^ 53)),
    (Z.ltb_spec M2 (2 ^ 53)), (Z.leb_spec E1 971), (Z.leb_spec (E1 + 1) 971),
    (Z.leb_spec E2 971), (Z.leb_spec (E2 + 1) 971);
    try lia; try reflexivity;
    apply SFleb_finite_pos; lia.
Qed.

Lemma round_nearest_even_mono E m1 l1 v1 m2 l2 v2 :
  located m1 E v1 l1 -> located m2 E v2 l2 -> (v1 <= v2)%R ->
  round_nearest_even m1 l1 <= round_nearest_even m2 l2.
Proof.
  intros L1 L2 Hv. pose proof (bpow_pos E) as HB.
  pose proof (round_nearest_even_range m1 l1).
  pose proof (round_nearest_even_range m2 l2).
  destruct (Z.lt_trichotomy m1 m2) as [Hlt|[->|Hgt]]; [lia| |].
  - apply located_cases in L1, L2.
    destruct l1 as [|[| |]], l2 as [|[| |]]; simpl in *;
      destruct (Z.even m2); first [lia | exfalso; lra].
  - exfalso. apply located_range in L1, L2.
    assert (Hz : m2 + 1 <= m1) by lia. apply IZR_le in Hz.
    rewrite plus_IZR in Hz. nra.
Qed.

Lemma located_mag m e v l :
  0 < m -> located m e v l ->
  (bpow (Zdigits2 m + e - 1) <= v < bpow (Zdigits2 m + e))%R.
Proof.
  intros Hm Hl. apply located_range in Hl.
  pose proof (Zdigits2_bounds m Hm) as [Dl Du].
  assert (Hd : 1 <= Zdigits2 m).
  { destruct m; simpl; lia. }
  replace (Zdigits2 m + e - 1) with ((Zdigits2 m - 1) + e) by lia.
  rewrite !bpow_add.
  rewrite (bpow_IZR (Zdigits2 m - 1)), (bpow_IZR (Zdigits2 m)) by lia.
  pose proof (bpow_pos e) as HB.
  apply IZR_le in Dl. assert (Du' : m + 1 <= 2 ^ Zdigits2 m) by lia.
  apply IZR_le in Du'. rewrite plus_IZR in Du'.
  generalize dependent (IZR (2 ^ (Zdigits2 m - 1))).
  generalize dependent (IZR (2 ^ Zdigits2 m)).
  intros hi Hhi lo Hlo.
  split.
  - apply Rle_trans with (IZR m * bpow e)%R; [|lra].
    apply Rmult_le_compat_r; lra.
  - apply Rlt_le_trans with ((IZR m + 1) * bpow e)%R; [lra|].
    apply Rmult_le_compat_r; lra.
Qed.

(** Two exact values in order, neither negative, are cut to two numbers in
    order. *)
Theorem binary_round_aux_mono m1 e1 l1 v1 m2 e2 l2 v2 :
  0 <= m1 -> 0 <= m2 ->
  e1 <= fexp prec emax (Zdigits2 m1 + e1) -> e2 <= fexp prec emax (Zdigits2 m2 + e2) ->
  located m1 e1 v1 l1 -> located m2 e2 v2 l2 -> (v1 <= v2)%R ->
  SFleb (binary_round_aux prec emax false m1 e1 l1)
        (binary_round_aux prec emax false m2 e2 l2) = true.
Proof.
  intros Hm1 Hm2 He1 He2 L1 L2 Hv.
  destruct (binary_round_aux_rounded false m1 e1 l1 v1 Hm1 He1 L1)
    as (a1 & k1 & A1 & B1 & C1 & ->).
  destruct (binary_round_aux_rounded false m2 e2 l2 v2 Hm2 He2 L2)
    as (a2 & k2 & A2 & B2 & C2 & ->).
  pose proof (round_nearest_even_range a1 k1).
  pose proof (round_nearest_even_range a2 k2).
  assert (HE : fexp prec emax (Zdigits2 m1 + e1)
               <= fexp prec emax (Zdigits2 m2 + e2)).
  { destruct (Z.eq_dec m1 0) as [Z1|Z1].
    { revert He1. rewrite Z1, !fexp64_eq. simpl Zdigits2. lia. }
    assert (P1 : 0 < m1) by lia.
    pose proof (located_mag _ _ _ _ P1 L1) as G1.
    assert (Hk : Zdigits2 m1 + e1 <= Zdigits2 m2 + e2).
    { destruct (Z_le_gt_dec (Zdigits2 m1 + e1) (Zdigits2 m2 + e2));
        [assumption|exfalso].
      assert (G2 : (v2 < bpow (Zdigits2 m2 + e2))%R).
      { destruct (Z.eq_dec m2 0) as [Z2|Z2].
        - apply located_range in L2. rewrite Z2 in *. simpl Zdigits2.
          simpl (0 + e2). lra.
        - assert (P2 : 0 < m2) by lia.
          now destruct (located_mag _ _ _ _ P2 L2). }
      assert (Hb : (bpow (Zdigits2 m2 + e2) <= bpow (Zdigits2 m1 + e1 - 1))%R)
        by (apply bpow_le; lia).
      lra. }
    rewrite !fexp64_eq. lia. }
  set (E1 := fexp prec emax (Zdigits2 m1 + e1)) in *.
  set (E2 := fexp prec emax (Zdigits2 m2 + e2)) in *.
  assert (HE1 : -1074 <= E1) by (unfold E1; rewrite fexp64_eq; lia).
  destruct (Z.eq_dec E1 E2) as [Heq|Hne].
  - rewrite <- Heq in *. apply rounded_le_same; [|lia].
    split; [lia|]. now apply (round_nearest_even_mono E1 a1 k1 v1 a2 k2 v2).
  - apply rounded_le_next; lia.
Qed.

(** *** The order of the numbers, through their keys *)

Lemma SFltb_key x y :
  x <> S754_nan -> y <> S754_nan ->
  (SFltb x y = true <-> key_lt (key x) (key y)).
Proof.
  intros Hx Hy. unfold SFltb, key_lt.
  destruct x as [sx|sx| |sx mx ex], y as [sy|sy| |sy my ey];
    try congruence; try rewrite SFcompare_finite;
    try (destruct sx); try (destruct sy); simpl;
    try (split; [discriminate | lia]);
    try (split; [lia | reflexivity || discriminate]);
    try (split; [intros _; lia | reflexivity]).
  - destruct (Z.compare_spec ex ey), (Pos.compare_spec mx my); simpl;
      split; try discriminate; try reflexivity; try lia.
  - destruct (Z.compare_spec ex ey), (Pos.compare_spec mx my); simpl;
      split; try discriminate; try reflexivity; try lia.
Qed.

Lemma SFleb_key x y :
  x <> S754_nan -> y <> S754_nan ->
  (SFleb x y = true <-> key_lt (key x) (key y) \/ key x = key y).
Proof.
  intros Hx Hy. unfold SFleb, key_lt.
  destruct x as [sx|sx| |sx mx ex], y as [sy|sy| |sy my ey];
    try congruence; try rewrite SFcompare_finite;
    try (destruct sx); try (destruct sy); simpl;
    try (split; [discriminate | intros [?|?]; [lia | discriminate]]);
    try (split; [intros _; first [left; lia | right; reflexivity] | reflexivity]).
  - destruct (Z.compare_spec ex ey), (Pos.compare_spec mx my); simpl;
      (split; [ try discriminate; intros _; first [left; lia | right; congruence]
              | try reflexivity; intros [?|[= ? ?]]; lia ]).
  - destruct (Z.compare_spec ex ey), (Pos.compare_spec mx my); simpl;
      (split; [ try discriminate; intros _; first [left; lia | right; congruence]
              | try reflexivity; intros [?|[= ? ?]]; lia ]).
Qed.

Lemma SFleb_not_nan x y :
  SFleb x y = true -> x <> S754_nan /\ y <> S754_nan.
Proof.
  unfold SFleb.
  destruct x as [sx|sx| |sx mx ex], y as [sy|sy| |sy my ey]; simpl;
    try discriminate; intros _; split; discriminate.
Qed.

Lemma SFltb_not_nan x y :
  SFltb x y = true -> x <> S754_nan /\ y <> S754_nan.
Proof.
  unfold SFltb.
  destruct x as [sx|sx| |sx mx ex], y as [sy|sy| |sy my ey]; simpl;
    try discriminate; intros _; split; discriminate.
Qed.

Lemma key_lt_le_trans a b c :
  key_lt a b -> key_lt b c \/ b = c -> key_lt a c.
Proof.
  destruct a as [a1 [a2 a3]], b as [b1 [b2 b3]], c as [c1 [c2 c3]].
  unfold key_lt; simpl. intros H [H'|[= -> -> ->]]; lia.
Qed.

Lemma SFleb_trans x y z :
  SFleb x y = true -> SFleb y z = true -> SFleb x z = true.
Proof.
  intros H1 H2.
  destruct (SFleb_not_nan _ _ H1) as [Nx Ny].
  destruct (SFleb_not_nan _ _ H2) as [_ Nz].
  apply SFleb_key in H1, H2; try assumption. apply SFleb_key; try assumption.
  destruct H1 as [H1|H1].
  - left. eapply key_lt_le_trans; eassumption.
  - rewrite H1. exact H2.
Qed.

Lemma SFltb_leb_trans x y z :
  SFltb x y = true -> SFleb y z = true -> SFltb x z = true.
Proof.
  intros H1 H2.
  destruct (SFltb_not_nan _ _ H1) as [Nx Ny].
  destruct (SFleb_not_nan _ _ H2) as [_ Nz].
  apply SFltb_key in H1; try assumption.
  apply SFleb_key in H2; try assumption. apply SFltb_key; try assumption.
  eapply key_lt_le_trans; eassumption.
Qed.

(** *** Valid finite numbers *)

Lemma bounded_canonical m e :
  bounded prec emax m e = true ->
  Z.max (Z.pos (digits2_pos m) + e - 53) (-1074) = e /\ e <= 971.
Proof.
  unfold bounded, canonical_mantissa. rewrite andb_true_iff, fexp64_eq.
  intros [H1 H2]. apply Z.eqb_eq in H1. apply Z.leb_le in H2.
  split; [exact H1|exact H2].
Qed.

Lemma Prim2SF_bounded x s m e :
  Prim2SF x = S754_finite s m e -> bounded prec emax m e = true.
Proof.
  intros H. pose proof (Prim2SF_valid x) as V. rewrite H in V. exact V.
Qed.

(** The order of two valid positive numbers is the order of their values. *)
Lemma SFleb_value m1 e1 m2 e2 :
  bounded prec emax m1 e1 = true -> bounded prec emax m2 e2 = true ->
  SFleb (S754_finite false m1 e1) (S754_finite false m2 e2) = true ->
  (IZR (Z.pos m1) * bpow e1 <= IZR (Z.pos m2) * bpow e2)%R.
Proof.
  intros V1 V2 H.
  apply bounded_canonical in V1, V2. destruct V1 as [C1 _], V2 as [C2 _].
  apply SFleb_key in H; try discriminate. unfold key_lt in H; simpl in H.
  pose proof (digits2_pos_bounds m1) as [L1 U1].
  pose proof (digits2_pos_bounds m2) as [L2 U2].
  assert (Hcase : e1 < e2 \/ (e1 = e2 /\ Z.pos m1 <= Z.pos m2)).
  { destruct H as [[H|[_ [H|[H H']]]]|[= H H']]; lia. }
  clear H. destruct Hcase as [Hlt|[-> Hle]].
  - assert (D1 : Z.pos (digits2_pos m1) <= 53) by lia.
    assert (D2 : Z.pos (digits2_pos m2) = 53) by lia.
    rewrite D2 in L2. change (2 ^ (53 - 1)) with (2 ^ 52) in L2.
    assert (U1' : Z.pos m1 <= 2 ^ 53).
    { assert (2 ^ Z.pos (digits2_pos m1) <= 2 ^ 53)
        by (apply Z.pow_le_mono_r; lia). lia. }
    apply IZR_le in U1', L2.
    rewrite <- (bpow_IZR 53) in U1' by lia.
    rewrite <- (bpow_IZR 52) in L2 by lia.
    pose proof (bpow_pos e1) as B1. pose proof (bpow_pos e2) as B2.
    assert (Hb : (bpow (53 + e1) <= bpow (52 + e2))%R) by (apply bpow_le; lia).
    rewrite !bpow_add in Hb.
    apply Rle_trans with (bpow 53 * bpow e1)%R.
    + apply Rmult_le_compat_r; lra.
    + apply Rle_trans with (bpow 52 * bpow e2)%R; [exact Hb|].
      apply Rmult_le_compat_r; lra.
  - apply Rmult_le_compat_r; [pose proof (bpow_pos e2); lra|].
    now apply IZR_le.
Qed.

(** *** Multiplication *)

Lemma mul_digits mx my :
  Z.pos (digits2_pos mx) + Z.pos (digits2_pos my) - 1
  <= Z.pos (digits2_pos (mx * my)).
Proof.
  pose proof (digits2_pos_bounds mx) as [Lx Ux].
  pose proof (digits2_pos_bounds my) as [Ly Uy].
  pose proof (digits2_pos_bounds (mx * my)) as [L U].
  rewrite Pos2Z.inj_mul in L, U.
  set (dx := Z.pos (digits2_pos mx)) in *.
  set (dy := Z.pos (digits2_pos my)) in *.
  set (d := Z.pos (digits2_pos (mx * my))) in *.
  destruct (Z_le_gt_dec (dx + dy - 1) d) as [H|H]; [exact H|exfalso].
  assert (Hp : 2 ^ d <= 2 ^ (dx - 1 + (dy - 1)))
    by (apply Z.pow_le_mono_r; unfold dx, dy, d in *; lia).
  rewrite Z.pow_add_r in Hp by (unfold dx, dy; lia).
  assert (2 ^ (dx - 1) * 2 ^ (dy - 1) <= Z.pos mx * Z.pos my)
    by (apply Z.mul_le_mono_nonneg; try lia;
        apply Z.pow_nonneg; lia).
  lia.
Qed.

Lemma mul_exponent_ok mx ex my ey :
  bounded prec emax mx ex = true -> bounded prec emax my ey = true ->
  ex + ey <= fexp prec emax (Zdigits2 (Z.pos (mx * my)) + (ex + ey)).
Proof.
  intros Vx Vy. apply bounded_canonical in Vx, Vy.
  pose proof (mul_digits mx my). rewrite fexp64_eq. simpl Zdigits2.
  assert (0 < Z.pos (digits2_pos mx)) by lia.
  assert (0 < Z.pos (digits2_pos my)) by lia.
  lia.
Qed.

Lemma SFmul_mono mc ec mx ex my ey :
  bounded prec emax mc ec = true ->
  bounded prec emax mx ex = true ->
  bounded prec emax my ey = true ->
  SFleb (S754_finite false mx ex) (S754_finite false my ey) = true ->
  SFleb (SFmul prec emax (S754_finite false mc ec) (S754_finite false mx ex))
        (SFmul prec emax (S754_finite false mc ec) (S754_finite false my ey))
  = true.
Proof.
  intros Vc Vx Vy H. pose proof (SFleb_value _ _ _ _ Vx Vy H) as Hv.
  cbn [SFmul xorb].
  apply binary_round_aux_mono with
    (v1 := (IZR (Z.pos mc) * bpow ec * (IZR (Z.pos mx) * bpow ex))%R)
    (v2 := (IZR (Z.pos mc) * bpow ec * (IZR (Z.pos my) * bpow ey))%R);
    try lia; try (now apply mul_exponent_ok).
  - constructor. rewrite Pos2Z.inj_mul, mult_IZR, bpow_add. ring.
  - constructor. rewrite Pos2Z.inj_mul, mult_IZR, bpow_add. ring.
  - apply Rmult_le_compat_l; [|exact Hv].
    pose proof (bpow_pos ec). assert (0 < IZR (Z.pos mc))%R by (apply IZR_lt; lia).
    nra.
Qed.

(** *** Division *)

Lemma new_location_eq nb k :
  new_location nb k =
  if Z.even nb then
    if k =? 0 then loc_Exact else loc_Inexact (2 * k ?= nb)
  else
    if k =? 0 then loc_Exact
    else loc_Inexact match 2 * k + 1 ?= nb with Gt => Gt | _ => Lt end.
Proof.
  unfold new_location. change (IntDef.Z.even nb) with (Z.even nb).
  destruct (Z.even nb); reflexivity.
Qed.

Lemma SFdiv_core_binary_eq m1 e1 m2 e2 :
  SFdiv_core_binary prec emax m1 e1 m2 e2 =
  let e' := Z.min (fexp prec emax (Zdigits2 m1 + e1 - (Zdigits2 m2 + e2))) (e1 - e2) in
  let s := e1 - e2 - e' in
  let m' := match s with
            | Z.pos _ => Z.shiftl m1 s
            | Z0 => m1
            | Z.neg _ => 0
            end in
  let '(q, r) := Z.div_eucl m' m2 in
  (q, e', new_location m2 r).
Proof. reflexivity. Qed.

Lemma new_location_located nb k q e :
  0 < nb -> 0 <= k < nb ->
  located q e ((IZR q + IZR k / IZR nb) * bpow e) (new_location nb k).
Proof.
  intros Hnb Hk. pose proof (bpow_pos e) as HB.
  assert (Hn : (0 < IZR nb)%R) by (apply IZR_lt; lia).
  set (f := (IZR k / IZR nb)%R).
  assert (Hf : (IZR k = f * IZR nb)%R) by (unfold f; field; lra).
  assert (Hlt : 2 * k < nb -> (f < / 2)%R).
  { intros H. apply IZR_lt in H. rewrite mult_IZR in H. nra. }
  assert (Hgt : nb < 2 * k -> (/ 2 < f)%R).
  { intros H. apply IZR_lt in H. rewrite mult_IZR in H. nra. }
  assert (Heq : 2 * k = nb -> (f = / 2)%R).
  { intros H. apply (f_equal IZR) in H. rewrite mult_IZR in H. nra. }
  assert (H0 : 0 < k -> (0 < f)%R).
  { intros H. apply IZR_lt in H. nra. }
  assert (H1 : (f < 1)%R).
  { assert (H : k < nb) by lia. apply IZR_lt in H. nra. }
  rewrite new_location_eq.
  destruct (Z.eqb_spec k 0) as [Hz|Hz].
  - assert (f = 0)%R by (unfold f; rewrite Hz; field; lra).
    destruct (Z.even nb); constructor; nra.
  - assert (Hkp : 0 < k) by lia. specialize (H0 Hkp).
    destruct (Z.even nb) eqn:Ev.
    + destruct (Z.compare_spec (2 * k) nb) as [E|L|G]; constructor.
      * specialize (Heq E). nra.
      * specialize (Hlt L). nra.
      * specialize (Hgt G). nra.
    + assert (Hodd : 2 * k <> nb).
      { intros E. rewrite <- E, Z.even_mul in Ev. discriminate. }
      destruct (Z.compare_spec (2 * k + 1) nb) as [E|L|G]; constructor.
      * assert (L : 2 * k < nb) by lia. specialize (Hlt L). nra.
      * assert (L' : 2 * k < nb) by lia. specialize (Hlt L'). nra.
      * assert (G' : nb < 2 * k) by lia. specialize (Hgt G'). nra.
Qed.

(** The quotient of two mantissas, before the cut: the exponent the code
    chooses, a quotient that is not negative, and the place of the exact
    quotient.  It holds of subnormal operands and of quotients below the
    smallest normal number as well. *)
Lemma SFdiv_core m1 e1 m2 e2 :
  exists q e' l,
    SFdiv_core_binary prec emax (Z.pos m1) e1 (Z.pos m2) e2 = (q, e', l) /\
    0 <= q /\
    e' <= fexp prec emax (Zdigits2 q + e') /\
    located q e' (IZR (Z.pos m1) * bpow e1 / (IZR (Z.pos m2) * bpow e2)) l.
Proof.
  pose proof (digits2_pos_bounds m1) as [L1 U1].
  pose proof (digits2_pos_bounds m2) as [L2 U2].
  rewrite SFdiv_core_binary_eq. cbn [Zdigits2].
  set (d1 := Z.pos (digits2_pos m1)) in *.
  set (d2 := Z.pos (digits2_pos m2)) in *.
  assert (D1 : 1 <= d1) by (unfold d1; lia).
  assert (D2 : 1 <= d2) by (unfold d2; lia).
  set (k := d1 + e1 - (d2 + e2)).
  set (e' := Z.min (fexp prec emax k) (e1 - e2)).
  set (s := e1 - e2 - e').
  assert (Hs : 0 <= s) by (unfold s, e'; lia).
  cbv zeta.
  assert (Hm' : match s with
                | Z.pos _ => Z.shiftl (Z.pos m1) s
                | 0 => Z.pos m1
                | Z.neg _ => 0
                end = Z.pos m1 * 2 ^ s).
  { destruct s as [|p|p] eqn:Es; [lia| |lia].
    rewrite Z.shiftl_mul_pow2 by lia. reflexivity. }
  rewrite Hm'.
  assert (P2s : 0 < 2 ^ s) by (apply Z.pow_pos_nonneg; lia).
  pose proof (Z_div_mod (Z.pos m1 * 2 ^ s) (Z.pos m2) ltac:(lia)) as Hdm.
  destruct (Z.div_eucl (Z.pos m1 * 2 ^ s) (Z.pos m2)) as [q r].
  destruct Hdm as [Hq Hr].
  assert (Hq0 : 0 <= q) by nia.
  assert (Hv : (IZR (Z.pos m1) * bpow e1 / (IZR (Z.pos m2) * bpow e2))%R
               = ((IZR q + IZR r / IZR (Z.pos m2)) * bpow e')%R).
  { assert (Hm2 : (0 < IZR (Z.pos m2))%R) by (apply IZR_lt; lia).
    pose proof (bpow_pos e2) as B2.
    pose proof (bpow_pos e') as B.
    replace e1 with (e' + s + e2) by (unfold s; ring).
    rewrite !bpow_add, (bpow_IZR s) by lia.
    apply (f_equal IZR) in Hq. rewrite plus_IZR, !mult_IZR in Hq.
    field_simplify_eq; [|lra].
    generalize dependent (IZR (2 ^ s)). intros P HP. nra. }
  assert (Hloc : located q e'
            (IZR (Z.pos m1) * bpow e1 / (IZR (Z.pos m2) * bpow e2))
            (new_location (Z.pos m2) r)).
  { rewrite Hv. apply new_location_located; lia. }
  exists q, e', (new_location (Z.pos m2) r).
  split; [reflexivity|]. split; [exact Hq0|]. split; [|exact Hloc].
  destruct (Z.eq_dec q 0) as [Z0|Z0].
  - (* a zero quotient only arises below the smallest exponent *)
    rewrite Z0, fexp64_eq. simpl Zdigits2.
    destruct (Z_le_gt_dec e' (-1074)) as [H|H]; [lia|exfalso].
    assert (Hs' : 53 - d1 + d2 <= s).
    { revert H. unfold s, e', k. rewrite fexp64_eq. lia. }
    assert (A : 2 ^ (52 + d2) <= Z.pos m1 * 2 ^ s).
    { apply Z.le_trans with (2 ^ (d1 - 1 + s)).
      - apply Z.pow_le_mono_r; lia.
      - rewrite Z.pow_add_r by lia. apply Z.mul_le_mono_nonneg_r; lia. }
    assert (B : 2 ^ d2 <= 2 ^ (52 + d2)) by (apply Z.pow_le_mono_r; lia).
    subst q. lia.
  - assert (Hqp : 0 < q) by lia.
    pose proof (located_mag _ _ _ _ Hqp Hloc) as [_ G].
    assert (Hlow : (bpow (k - 1)
                    <= IZR (Z.pos m1) * bpow e1 / (IZR (Z.pos m2) * bpow e2))%R).
    { assert (Hm2 : (0 < IZR (Z.pos m2))%R) by (apply IZR_lt; lia).
      pose proof (bpow_pos e1) as B1. pose proof (bpow_pos e2) as B2.
      pose proof (bpow_pos (k - 1)) as Bk.
      assert (Hmul : (bpow (k - 1) * (IZR (Z.pos m2) * bpow e2)
                      <= IZR (Z.pos m1) * bpow e1)%R).
      { apply Rle_trans with (bpow (k - 1) * (bpow d2 * bpow e2))%R.
        - apply Rmult_le_compat_l; [lra|]. apply Rmult_le_compat_r; [lra|].
          rewrite (bpow_IZR d2) by lia. apply IZR_le. lia.
        - rewrite <- !bpow_add.
          replace (k - 1 + (d2 + e2)) with ((d1 - 1) + e1) by (unfold k; ring).
          rewrite bpow_add. apply Rmult_le_compat_r; [lra|].
          rewrite (bpow_IZR (d1 - 1)) by lia. apply IZR_le. exact L1. }
      set (Y := (IZR (Z.pos m2) * bpow e2)%R) in *.
      assert (HY : (0 < Y)%R) by (unfold Y; nra).
      unfold Rdiv. apply Rmult_le_reg_r with Y; [exact HY|].
      rewrite Rmult_assoc, Rinv_l by lra. lra. }
    assert (Hk : k <= Zdigits2 q + e').
    { destruct (Z_le_gt_dec k (Zdigits2 q + e')); [assumption|exfalso].
      assert (Hb : (bpow (Zdigits2 q + e') <= bpow (k - 1))%R)
        by (apply bpow_le; lia).
      lra. }
    unfold e' at 1. rewrite !fexp64_eq. lia.
Qed.

Lemma SFdiv_mono ma ea mb eb ma' ea' mb' eb' :
  bounded prec emax ma ea = true -> bounded prec emax mb eb = true ->
  bounded prec emax ma' ea' = true -> bounded prec emax mb' eb' = true ->
  SFleb (S754_finite false ma ea) (S754_finite false ma' ea') = true ->
  SFleb (S754_finite false mb' eb') (S754_finite false mb eb) = true ->
  SFleb (SFdiv prec emax (S754_finite false ma ea) (S754_finite false mb eb))
        (SFdiv prec emax (S754_finite false ma' ea') (S754_finite false mb' eb'))
  = true.
Proof.
  intros Va Vb Va' Vb' Hle Hge.
  pose proof (SFleb_value _ _ _ _ Va Va' Hle) as Hv1.
  pose proof (SFleb_value _ _ _ _ Vb' Vb Hge) as Hv2.
  destruct (SFdiv_core ma ea mb eb) as (q & e & l & Hc & Hq & Hf & Hl).
  destruct (SFdiv_core ma' ea' mb' eb') as (q' & e' & l' & Hc' & Hq' & Hf' & Hl').
  unfold SFdiv. rewrite Hc, Hc'. cbn [xorb].
  eapply binary_round_aux_mono; try eassumption.
  assert (Pa : (0 < IZR (Z.pos ma) * bpow ea)%R)
    by (apply Rmult_lt_0_compat; [apply IZR_lt; lia|apply bpow_pos]).
  assert (Pb' : (0 < IZR (Z.pos mb') * bpow eb')%R)
    by (apply Rmult_lt_0_compat; [apply IZR_lt; lia|apply bpow_pos]).
  unfold Rdiv. apply Rmult_le_compat; try lra.
  - apply Rlt_le, Rinv_0_lt_compat. lra.
  - apply Rinv_le_contravar; lra.
Qed.

(** *** At the level of the primitive type *)

Lemma leb_finite_l c x mc ec :
  Prim2SF c = S754_finite false mc ec -> PrimFloat.leb c x = true ->
  Prim2SF x = S754_infinity false \/
  exists m e, Prim2SF x = S754_finite false m e /\ ec <= e.
Proof.
  intros Hc. rewrite leb_spec, Hc.
  destruct (Prim2SF x) as [s|s| |s m e]; intros H.
  - discriminate.
  - destruct s; [discriminate|now left].
  - discriminate.
  - right. apply SFleb_key in H; try discriminate.
    destruct s; unfold key_lt in H; simpl in H.
    + exfalso. destruct H as [H|[= ]]; lia.
    + exists m, e. split; [reflexivity|]. destruct H as [H|[= ? ?]]; lia.
Qed.

Lemma ltb_infinity x :
  PrimFloat.ltb x infinity = true -> Prim2SF x <> S754_infinity false.
Proof.
  rewrite ltb_spec. intros H E. rewrite E in H. discriminate.
Qed.

Lemma SFleb_finite_pos_Z m1 e1 m2 e2 :
  e1 < e2 \/ (e1 = e2 /\ Z.pos m1 <= Z.pos m2) ->
  SFleb (S754_finite false m1 e1) (S754_finite false m2 e2) = true.
Proof.
  intros [H|[H1 H2]]; apply SFleb_finite_pos; [now left|right].
  split; [exact H1|]. unfold Pos.le.
  destruct (Pos.compare_spec m1 m2); [discriminate|discriminate|lia].
Qed.

Lemma leb_max_float x m e :
  Prim2SF x = S754_finite false m e ->
  PrimFloat.leb x 0x1.fffffffffffffp+1023 = true.
Proof.
  intros Hx. pose proof (Prim2SF_bounded _ _ _ _ Hx) as V.
  apply bounded_canonical in V. destruct V as [C Ee].
  rewrite leb_spec, Hx.
  replace (Prim2SF 0x1.fffffffffffffp+1023)
    with (S754_finite false 9007199254740991 971) by reflexivity.
  apply SFleb_finite_pos_Z.
  pose proof (digits2_pos_bounds m) as [_ U].
  assert (D : Z.pos (digits2_pos m) <= 53) by lia.
  assert (P : 2 ^ Z.pos (digits2_pos m) <= 2 ^ 53)
    by (apply Z.pow_le_mono_r; lia).
  assert (Q : 2 ^ 53 = 9007199254740992) by reflexivity.
  rewrite Q in P. clear Q. lia.
Qed.

Lemma leb_refl_finite x m e :
  Prim2SF x = S754_finite false m e -> PrimFloat.leb x x = true.
Proof.
  intros Hx. rewrite leb_spec, Hx. apply SFleb_finite_pos_Z. right. lia.
Qed.

Lemma leb_trans (x y z : float) :
  PrimFloat.leb x y = true -> PrimFloat.leb y z = true ->
  PrimFloat.leb x z = true.
Proof. rewrite !leb_spec. apply SFleb_trans. Qed.

Lemma ltb_leb_trans (x y z : float) :
  PrimFloat.ltb x y = true -> PrimFloat.leb y z = true ->
  PrimFloat.ltb x z = true.
Proof. rewrite !ltb_spec, leb_spec. apply SFltb_leb_trans. Qed.

Lemma mul_mono (c x y : float) mc ec mx ex my ey :
  Prim2SF c = S754_finite false mc ec ->
  Prim2SF x = S754_finite false mx ex ->
  Prim2SF y = S754_finite false my ey ->
  PrimFloat.leb x y = true ->
  PrimFloat.leb (c * x) (c * y) = true.
Proof.
  intros Hc Hx Hy. rewrite !leb_spec, !mul_spec, Hc, Hx, Hy.
  apply SFmul_mono; eapply Prim2SF_bounded; eassumption.
Qed.

Lemma div_mono (a b a' b' : float) ma ea mb eb ma' ea' mb' eb' :
  Prim2SF a = S754_finite false ma ea ->
  Prim2SF b = S754_finite false mb eb ->
  Prim2SF a' = S754_finite false ma' ea' ->
  Prim2SF b' = S754_finite false mb' eb' ->
  PrimFloat.leb a a' = true -> PrimFloat.leb b' b = true ->
  PrimFloat.leb (a / b) (a' / b') = true.
Proof.
  intros Ha Hb Ha' Hb'. rewrite !leb_spec, !div_spec, Ha, Hb, Ha', Hb'.
  intros. apply SFdiv_mono; try assumption; eapply Prim2SF_bounded; eassumption.
Qed.

(** The quotient of two positive numbers is not negative: it is zero when
    it underflows. *)
Lemma SFdiv_nonneg ma ea mb eb :
  SFleb (S754_zero false)
        (SFdiv prec emax (S754_finite false ma ea) (S754_finite false mb eb))
  = true.
Proof.
  destruct (SFdiv_core ma ea mb eb) as (q & e & l & Hc & Hq & Hf & Hl).
  unfold SFdiv. rewrite Hc. cbn [xorb].
  destruct (binary_round_aux_rounded false q e l _ Hq Hf Hl)
    as (m' & l' & _ & _ & _ & ->).
  unfold rounded.
  destruct (_ =? 0); [reflexivity|].
  destruct (_ <? 2 ^ 53); destruct (_ <=? 971); reflexivity.
Qed.

Lemma div_nonneg (a b : float) ma ea mb eb :
  Prim2SF a = S754_finite false ma ea ->
  Prim2SF b = S754_finite false mb eb ->
  PrimFloat.leb 0 (a / b) = true.
Proof.
  intros Ha Hb. rewrite leb_spec, div_spec, Ha, Hb. apply SFdiv_nonneg.
Qed.

Lemma ltb_zero_cases (x : float) :
  PrimFloat.ltb 0 x = true ->
  Prim2SF x = S754_infinity false \/
  exists m e, Prim2SF x = S754_finite false m e.
Proof.
  rewrite ltb_spec. replace (Prim2SF 0) with (S754_zero false) by reflexivity.
  destruct (Prim2SF x) as [s|s| |s m e]; intros H.
  - destruct s; discriminate.
  - destruct s; [discriminate|now left].
  - discriminate.
  - destruct s; [discriminate|right; now exists m, e].
Qed.

(** *** NaN *)

Lemma is_nan_false (x : float) :
  PrimFloat.is_nan x = false <-> Prim2SF x <> S754_nan.
Proof.
  unfold PrimFloat.is_nan. rewrite FloatAxioms.eqb_spec. unfold SFeqb.
  destruct (Prim2SF x) as [s|s| |s m e]; try rewrite SFcompare_finite; simpl.
  - split; [discriminate|reflexivity].
  - destruct s; (split; [discriminate|reflexivity]).
  - split; [discriminate|congruence].
  - rewrite Z.compare_refl, Pos.compare_refl.
    destruct s; (split; [discriminate|reflexivity]).
Qed.

Lemma leb_of_ltb_false (x c : float) :
  PrimFloat.is_nan x = false -> PrimFloat.is_nan c = false ->
  PrimFloat.ltb x c = false -> PrimFloat.leb c x = true.
Proof.
  rewrite !is_nan_false, ltb_spec, leb_spec. intros Hx Hc H.
  apply SFleb_key; try assumption.
  destruct (SFltb (Prim2SF c) (Prim2SF x)) eqn:E.
  - left. apply SFltb_key in E; assumption.
  - right.
    assert (N1 : ~ key_lt (key (Prim2SF x)) (key (Prim2SF c))).
    { intros K. apply SFltb_key in K; try assumption. congruence. }
    assert (N2 : ~ key_lt (key (Prim2SF c)) (key (Prim2SF x))).
    { intros K. apply SFltb_key in K; try assumption. congruence. }
    destruct (key (Prim2SF x)) as [a1 [a2 a3]], (key (Prim2SF c)) as [b1 [b2 b3]].
    unfold key_lt in N1, N2; simpl in N1, N2.
    assert (a1 = b1) by lia. assert (a2 = b2) by lia. assert (a3 = b3) by lia.
    congruence.
Qed.

(** *** Python's [max(x, c)] *)

Lemma SFcompare_Eq_finite (x : spec_float) (s : bool) (m : positive) (e : Z) :
  SFcompare x (S754_finite s m e) = Some Eq -> x = S754_finite s m e.
Proof.
  destruct x as [sx|sx| |sx mx ex]; try rewrite SFcompare_finite; simpl;
    try discriminate.
  - destruct s; discriminate.
  - destruct sx; discriminate.
  - destruct sx, s; try discriminate; intros [= H];
      destruct (ex ?= e)%Z eqn:He; try discriminate;
      apply Z.compare_eq in He; subst ex.
    + destruct (mx ?= m)%positive eqn:Hm; try discriminate.
      apply Pos.compare_eq in Hm. now subst.
    + apply Pos.compare_eq in H. now subst.
Qed.

(** [x <= c] is [x < c] or [x] is [c] itself, for a finite non-zero [c]. *)
Lemma leb_finite_cases (x c : float) (s : bool) (m : positive) (e : Z) :
  Prim2SF c = S754_finite s m e ->
  PrimFloat.leb x c = true -> PrimFloat.ltb x c = true \/ x = c.
Proof.
  intros Hc. rewrite ltb_spec, leb_spec. unfold SFltb, SFleb.
  destruct (SFcompare (Prim2SF x) (Prim2SF c)) as [[| |]|] eqn:E;
    try discriminate; intros _; [right|left; reflexivity].
  apply Prim2SF_inj. rewrite Hc in E |- *. now apply SFcompare_Eq_finite.
Qed.

Lemma max_cases (x c : float) :
  (PrimFloat.ltb x c = true /\ Py.max x c = c) \/
  (PrimFloat.ltb x c = false /\ Py.max x c = x).
Proof. unfold Py.max. destruct (PrimFloat.ltb x c); auto. Qed.

Lemma max_below (x c : float) (s : bool) (m : positive) (e : Z) :
  Prim2SF c = S754_finite s m e ->
  PrimFloat.leb x c = true -> Py.max x c = c.
Proof.
  intros Hc Hle. unfold Py.max.
  destruct (leb_finite_cases x c s m e Hc Hle) as [-> | ->]; [reflexivity|].
  now destruct (PrimFloat.ltb c c).
Qed.

(** Against a number, [max] of a number is at least that number. *)
Lemma max_floor (x c : float) (m : positive) (e : Z) :
  Prim2SF c = S754_finite false m e ->
  PrimFloat.is_nan x = false ->
  PrimFloat.leb c (Py.max x c) = true.
Proof.
  intros Hc Hx. destruct (max_cases x c) as [[_ ->] | [Hlt ->]].
  - now apply (leb_refl_finite c m e).
  - apply leb_of_ltb_false; [exact Hx| |exact Hlt].
    apply is_nan_false. rewrite Hc. discriminate.
Qed.

End Binary64Facts.

(** ** The calibration floor *)

Module Calibration.

Import Py App.

Lemma Prim2SF_floor_conc :
  Prim2SF 0.1 = S754_finite false 7205759403792794 (-56).
Proof. reflexivity. Qed.

(** Whenever the calibrator answers a number, the calibrated concentration
    is at least 0.1. *)
Lemma calibrate_floor calibrator (theory raw : float) (rest : list float) :
  calibrator [[theory]] = Ok (raw :: rest) ->
  PrimFloat.is_nan raw = false ->
  exists conc, calibrate calibrator theory = Ok conc /\
               PrimFloat.leb 0.1 conc = true.
Proof.
  intros H Hraw. unfold calibrate. rewrite H. simpl.
  eexists. split; [reflexivity|].
  now apply (Binary64Facts.max_floor raw 0.1 _ _ Prim2SF_floor_conc).
Qed.

(** C3, at the input where it fails: a calibrator that answers NaN.  The
    floor [max(float(pred_conc), 0.1)] keeps its first argument unless the
    second is greater, and nothing is greater than NaN: the calibrated
    concentration is NaN, which is not at least 0.1, and NaN is what the
    page shows. *)
Theorem calibration_floor_misses_nan :
  calibrate (Stub.calibrator nan) 33.333333333333336 = Ok nan /\
  PrimFloat.leb 0.1 nan = false /\
  estimation (Stub.model_cl 0.5) (Stub.calibrator nan) scenario =
    Ok {| pred_cl := 0.5; theory_conc := 33.333333333333336;
          pred_conc := nan |} /\
  In (metric "Voriconazole concentration (mg/L)" nan)
     (fst (estimation_block (Stub.model_cl 0.5) (Stub.calibrator nan)
             scenario [])).
Proof.
  repeat split; try reflexivity.
  vm_compute. tauto.
Qed.

End Calibration.

(** ** The pharmacokinetic back-calculation *)

Module BackCalculation.

Import Py App.

Local Open Scope Z_scope.

Lemma Prim2SF_24 : Prim2SF 24 = S754_finite false 6755399441055744 (-48).
Proof. reflexivity. Qed.

Lemma Prim2SF_0_1 : Prim2SF 0.1 = S754_finite false 7205759403792794 (-56).
Proof. reflexivity. Qed.

Lemma Prim2SF_2_4 : Prim2SF 2.4 = S754_finite false 5404319552844595 (-51).
Proof. reflexivity. Qed.

Lemma Prim2SF_floor :
  Prim2SF (24 * 0.1) = S754_finite false 5404319552844596 (-51).
Proof. reflexivity. Qed.

Lemma Prim2SF_10 : Prim2SF 10 = S754_finite false 5629499534213120 (-49).
Proof. reflexivity. Qed.

Lemma Prim2SF_dose_floor :
  Prim2SF 0x1p-51 = S754_finite false 4503599627370496 (-103).
Proof. reflexivity. Qed.

Lemma Prim2SF_max_float :
  Prim2SF 0x1.fffffffffffffp+1023 = S754_finite false 9007199254740991 971.
Proof. reflexivity. Qed.

Lemma denominator_floor (cl : float) :
  PrimFloat.is_nan cl = false ->
  PrimFloat.leb (24 * 0.1) (24 * Py.max cl 0.1) = true.
Proof.
  intros Hn. unfold Py.max.
  destruct (PrimFloat.ltb cl 0.1) eqn:Hlt; [reflexivity|].
  assert (Hle : PrimFloat.leb 0.1 cl = true)
    by (apply Binary64Facts.leb_of_ltb_false; [exact Hn|reflexivity|exact Hlt]).
  destruct (Binary64Facts.leb_finite_l 0.1 cl _ _ Prim2SF_0_1 Hle) as [Hi|(m & e & Hx & _)].
  - rewrite leb_spec, (mul_spec 24 cl), Hi. reflexivity.
  - exact (Binary64Facts.mul_mono 24 0.1 cl _ _ _ _ _ _ Prim2SF_24 Prim2SF_0_1 Hx Hle).
Qed.

Lemma denominator_nonzero (cl : float) :
  PrimFloat.eqb (24 * Py.max cl 0.1) 0 = false.
Proof.
  destruct (PrimFloat.is_nan cl) eqn:Hn.
  - assert (Hc : Prim2SF cl = S754_nan).
    { destruct (Prim2SF cl) as [s|s| |s m e] eqn:E; try reflexivity;
        exfalso; assert (H : PrimFloat.is_nan cl = false)
          by (apply Binary64Facts.is_nan_false; rewrite E; discriminate);
        congruence. }
    unfold Py.max. rewrite ltb_spec, Hc. cbn.
    rewrite FloatAxioms.eqb_spec, (mul_spec 24 cl), Hc. reflexivity.
  - pose proof (denominator_floor cl Hn) as H.
    destruct (Binary64Facts.leb_finite_l (24 * 0.1) _ _ _ Prim2SF_floor H)
      as [Hi|(m & e & Hx & _)];
      rewrite FloatAxioms.eqb_spec; [rewrite Hi|rewrite Hx]; reflexivity.
Qed.

Lemma quotient_bounds (d den : float) :
  App.between 10 800 d = true ->
  PrimFloat.leb (24 * 0.1) den = true ->
  PrimFloat.ltb den infinity = true ->
  PrimFloat.ltb 0 (d / den) = true /\
  PrimFloat.leb (d / den) (d / 2.4) = true.
Proof.
  unfold App.between. rewrite andb_true_iff. intros [Hlo Hhi] Hden Hfin.
  destruct (Binary64Facts.leb_finite_l 10 d _ _ Prim2SF_10 Hlo) as [Hi|(md & ed & Hd & Hed)].
  { exfalso. rewrite leb_spec, Hi in Hhi. discriminate. }
  destruct (Binary64Facts.leb_finite_l (24 * 0.1) den _ _ Prim2SF_floor Hden)
    as [Hi|(mn & en & Hn & Hen)].
  { exfalso. now apply (Binary64Facts.ltb_infinity den). }
  pose proof (Binary64Facts.Prim2SF_bounded _ _ _ _ Hn) as Vn.
  apply Binary64Facts.bounded_canonical in Vn. destruct Vn as [_ Hen'].
  split.
  - apply Binary64Facts.ltb_leb_trans with (10 / 0x1.fffffffffffffp+1023)%float;
      [reflexivity|].
    apply (Binary64Facts.div_mono 10 0x1.fffffffffffffp+1023 d den _ _ _ _ _ _ _ _
             Prim2SF_10 Prim2SF_max_float Hd Hn); try lia.
    + exact Hlo.
    + exact (Binary64Facts.leb_max_float den _ _ Hn).
  - apply (Binary64Facts.div_mono d den d 2.4 _ _ _ _ _ _ _ _ Hd Hn Hd Prim2SF_2_4);
      try lia.
    + exact (Binary64Facts.leb_refl_finite d _ _ Hd).
    + apply Binary64Facts.leb_trans with (24 * 0.1)%float; [reflexivity|exact Hden].
Qed.

(** The quotient for any dose above zero, the infinite one included, and
    any finite denominator from the floor up: it is not negative, it is at
    most dose / 2.4, and it is above zero as soon as the dose is at least
    2^-51, below which the quotient by a large denominator rounds to zero. *)
Lemma quotient_range (d den : float) :
  PrimFloat.ltb 0 d = true ->
  PrimFloat.leb (24 * 0.1) den = true ->
  PrimFloat.ltb den infinity = true ->
  PrimFloat.leb 0 (d / den) = true /\
  PrimFloat.leb (d / den) (d / 2.4) = true /\
  (PrimFloat.leb 0x1p-51 d = true -> PrimFloat.ltb 0 (d / den) = true).
Proof.
  intros Hd Hden Hfin.
  destruct (Binary64Facts.leb_finite_l (24 * 0.1) den _ _ Prim2SF_floor Hden)
    as [Hi|(mn & en & Hn & Hen)].
  { exfalso. now apply (Binary64Facts.ltb_infinity den). }
  destruct (Binary64Facts.ltb_zero_cases d Hd) as [Hi|(md & ed & Hm)].
  - (* an infinite dose: both quotients are infinite *)
    rewrite ltb_spec, !leb_spec, !div_spec, Hi, Hn, Prim2SF_2_4.
    repeat split; reflexivity.
  - split; [exact (Binary64Facts.div_nonneg d den _ _ _ _ Hm Hn)|]. split.
    + apply (Binary64Facts.div_mono d den d 2.4 _ _ _ _ _ _ _ _
               Hm Hn Hm Prim2SF_2_4).
      * exact (Binary64Facts.leb_refl_finite d _ _ Hm).
      * apply Binary64Facts.leb_trans with (24 * 0.1)%float;
          [reflexivity|exact Hden].
    + intros Hlo.
      apply Binary64Facts.ltb_leb_trans
        with (0x1p-51 / 0x1.fffffffffffffp+1023)%float; [reflexivity|].
      apply (Binary64Facts.div_mono 0x1p-51 0x1.fffffffffffffp+1023 d den
               _ _ _ _ _ _ _ _ Prim2SF_dose_floor Prim2SF_max_float Hm Hn).
      * exact Hlo.
      * exact (Binary64Facts.leb_max_float den _ _ Hn).
Qed.

Lemma not_nan_of_finite_product (cl : float) :
  PrimFloat.ltb (24 * cl) infinity = true -> PrimFloat.is_nan cl = false.
Proof.
  intros H. apply Binary64Facts.is_nan_false. intros E.
  rewrite ltb_spec, (mul_spec 24 cl), E in H. discriminate.
Qed.

(** The denominator is never zero, so the division never raises. *)
Lemma calculate_theoretical_conc_ok (cl d : float) :
  calculate_theoretical_conc cl d = Ok (d / (24 * Py.max cl 0.1))%float.
Proof.
  unfold calculate_theoretical_conc, truediv.
  now rewrite denominator_nonzero.
Qed.

(** C1, at an input where it fails: a clearance of 0 and a dose of 400.
    The product 24.0 * 0.1 is the double 2.4000000000000004, not 2.4, and
    the quotient is 166.66666666666663, not 400 / 2.4 =
    166.66666666666669. *)
Lemma back_calculation_is_not_dose_over_2_4 :
  PrimFloat.leb 0 0.1 = true /\
  calculate_theoretical_conc 0 400 = Ok 166.66666666666663%float /\
  PrimFloat.div 400 2.4 = 166.66666666666669%float /\
  calculate_theoretical_conc 0 400 <> Ok (PrimFloat.div 400 2.4).
Proof.
  repeat split; try reflexivity.
  intros H.
  apply (f_equal (fun r => match r with
                           | Ok x => PrimFloat.eqb x 166.66666666666663
                           | Raise _ => false
                           end)) in H.
  vm_compute in H. discriminate.
Qed.

(** C1, as the script computes it: for every clearance and every dose the
    back-calculation returns the binary64 quotient of the dose by
    24.0 * max(clearance, 0.1), without raising; the product 24.0 * 0.1 is
    the double 2.4000000000000004, so whenever the clearance is at most 0.1
    the result is dose / 2.4000000000000004; a dose of 400 with a clearance
    of 0 gives 166.66666666666663. *)
Theorem back_calculation_formula (cl d : float) :
  calculate_theoretical_conc cl d = Ok (d / (24 * Py.max cl 0.1))%float /\
  (24 * 0.1)%float = 2.4000000000000004%float /\
  (PrimFloat.leb cl 0.1 = true ->
   calculate_theoretical_conc cl d = Ok (d / 2.4000000000000004)%float) /\
  calculate_theoretical_conc 0 400 = Ok 166.66666666666663%float.
Proof.
  split; [apply calculate_theoretical_conc_ok|].
  split; [reflexivity|]. split; [|reflexivity].
  intros Hle. rewrite calculate_theoretical_conc_ok.
  rewrite (Binary64Facts.max_below cl 0.1 _ _ _ Prim2SF_0_1 Hle).
  reflexivity.
Qed.

(** C10, at an input where it fails: a clearance of 1e308 and a dose of
    400.  The product 24.0 * 1e308 overflows to infinity and the quotient is
    0.0, which is not strictly positive. *)
Lemma back_calculation_result_can_be_zero :
  PrimFloat.ltb 0 400 = true /\
  calculate_theoretical_conc 1e308 400 = Ok 0%float /\
  PrimFloat.ltb 0 0 = false /\
  ~ (forall cl d : float,
        PrimFloat.ltb 0 d = true ->
        exists r, calculate_theoretical_conc cl d = Ok r /\
                  PrimFloat.ltb 0 r = true /\
                  PrimFloat.leb r (d / 2.4) = true).
Proof.
  repeat split; try reflexivity.
  intros H. destruct (H 1e308%float 400%float eq_refl) as (r & Hr & Hpos & _).
  rewrite calculate_theoretical_conc_ok in Hr.
  apply (f_equal (fun x => match x with
                           | Ok y => PrimFloat.ltb 0 y
                           | Raise _ => false
                           end)) in Hr.
  rewrite Hpos in Hr. vm_compute in Hr. discriminate.
Qed.

(** Below a dose of 2^-51 the quotient can round to zero although the
    denominator is finite: a dose two steps below 2^-51 and a clearance of
    0x1.5555555555554p+1019, the largest whose product with 24.0 is
    finite. *)
Example tiny_dose_underflows :
  PrimFloat.ltb 0 0x1.ffffffffffffep-52 = true /\
  PrimFloat.ltb (24 * 0x1.5555555555554p+1019) infinity = true /\
  calculate_theoretical_conc 0x1.5555555555554p+1019 0x1.ffffffffffffep-52
    = Ok 0%float.
Proof. repeat split; reflexivity. Qed.

(** C10, as the script computes it: the back-calculation never raises, the
    denominator 24.0 * max(clearance, 0.1) being non-zero for every
    clearance, NaN and the infinities included; for every clearance that is
    not NaN the denominator is at least 24.0 * 0.1, the double
    2.4000000000000004, hence at least 2.4; and whenever 24.0 * clearance is
    below infinity (the clearance is a number and the product does not
    overflow), for every dose above zero, the infinite one included, the
    result is not negative and at most dose / 2.4, and it is strictly
    positive as soon as the dose is at least 2^-51 (about 4.44e-16), below
    which the quotient can round to zero. *)
Theorem back_calculation_total_and_bounded (cl d : float) :
  (exists r, calculate_theoretical_conc cl d = Ok r) /\
  PrimFloat.eqb (24 * Py.max cl 0.1) 0 = false /\
  (PrimFloat.is_nan cl = false ->
   PrimFloat.leb (24 * 0.1) (24 * Py.max cl 0.1) = true /\
   (24 * 0.1)%float = 2.4000000000000004%float /\
   PrimFloat.leb 2.4 (24 * Py.max cl 0.1) = true) /\
  (PrimFloat.ltb (24 * cl) infinity = true ->
   PrimFloat.ltb 0 d = true ->
   exists r, calculate_theoretical_conc cl d = Ok r /\
             PrimFloat.leb 0 r = true /\
             PrimFloat.leb r (d / 2.4) = true /\
             (PrimFloat.leb 0x1p-51 d = true -> PrimFloat.ltb 0 r = true)).
Proof.
  split; [eexists; apply calculate_theoretical_conc_ok|].
  split; [apply denominator_nonzero|]. split.
  - intros Hn. pose proof (denominator_floor cl Hn) as Hf.
    split; [exact Hf|]. split; [reflexivity|].
    apply Binary64Facts.leb_trans with (24 * 0.1)%float;
      [reflexivity|exact Hf].
  - intros Hfin Hd. pose proof (not_nan_of_finite_product cl Hfin) as Hn.
    eexists. split; [apply calculate_theoretical_conc_ok|].
    apply quotient_range; [exact Hd|now apply denominator_floor|].
    destruct (Binary64Facts.max_cases cl 0.1) as [[_ ->] | [_ ->]];
      [reflexivity|exact Hfin].
Qed.

End BackCalculation.

(** ** More on the order of binary64 numbers *)

Module Binary64Order.

Import Binary64.

Local Open Scope Z_scope.

Lemma key_le_lt_trans a b c :
  key_lt a b \/ a = b -> key_lt b c -> key_lt a c.
Proof.
  destruct a as [a1 [a2 a3]], b as [b1 [b2 b3]], c as [c1 [c2 c3]].
  unfold key_lt; simpl. intros [H|[= -> -> ->]] H'; lia.
Qed.

Lemma key_lt_irrefl a b : key_lt a b -> key_lt b a \/ b = a -> False.
Proof.
  destruct a as [a1 [a2 a3]], b as [b1 [b2 b3]].
  unfold key_lt; simpl. intros H [H'|[= -> -> ->]]; lia.
Qed.

(** [x <= y] and [y < z] give [x < z]. *)
Lemma leb_ltb_trans (x y z : float) :
  PrimFloat.leb x y = true -> PrimFloat.ltb y z = true ->
  PrimFloat.ltb x z = true.
Proof.
  rewrite leb_spec, !ltb_spec. intros H1 H2.
  destruct (Binary64Facts.SFleb_not_nan _ _ H1) as [Nx Ny].
  destruct (Binary64Facts.SFltb_not_nan _ _ H2) as [_ Nz].
  apply Binary64Facts.SFleb_key in H1; try assumption.
  apply Binary64Facts.SFltb_key in H2; try assumption.
  apply Binary64Facts.SFltb_key; try assumption.
  eapply key_le_lt_trans; eassumption.
Qed.

(** [c <= x] excludes [x < c]. *)
Lemma ltb_false_of_leb (x c : float) :
  PrimFloat.leb c x = true -> PrimFloat.ltb x c = false.
Proof.
  rewrite leb_spec, ltb_spec. intros H.
  destruct (Binary64Facts.SFleb_not_nan _ _ H) as [Nc Nx].
  apply Binary64Facts.SFleb_key in H; try assumption.
  destruct (SFltb (Prim2SF x) (Prim2SF c)) eqn:E; [exfalso|reflexivity].
  apply Binary64Facts.SFltb_key in E; try assumption.
  eapply key_lt_irrefl; eassumption.
Qed.

Lemma leb_not_nan (x y : float) :
  PrimFloat.leb x y = true ->
  PrimFloat.is_nan x = false /\ PrimFloat.is_nan y = false.
Proof.
  rewrite leb_spec. intros H.
  destruct (Binary64Facts.SFleb_not_nan _ _ H) as [Nx Ny].
  split; now apply Binary64Facts.is_nan_false.
Qed.

(** The only number whose decomposition is NaN is [nan]; likewise for
    zero and infinity. *)
Lemma Prim2SF_nan (x : float) : Prim2SF x = S754_nan -> x = nan.
Proof. intros H. now apply Prim2SF_inj. Qed.

Lemma is_nan_true (x : float) : PrimFloat.is_nan x = true -> x = nan.
Proof.
  intros H. apply Prim2SF_nan.
  destruct (Prim2SF x) as [s|s| |s m e] eqn:E; try reflexivity;
    exfalso; assert (H' : PrimFloat.is_nan x = false)
      by (apply Binary64Facts.is_nan_false; rewrite E; discriminate);
    congruence.
Qed.

End Binary64Order.

(** ** The back-calculation as a function of the dose and the clearance *)

Module BackCalculationFacts.

Import Py App BackCalculation.

Local Open Scope Z_scope.

(** A dose of the widget is a normal positive number. *)
Lemma dose_finite (d : float) :
  between 10 800 d = true ->
  exists m e, Prim2SF d = S754_finite false m e /\ -49 <= e.
Proof.
  unfold between. rewrite andb_true_iff. intros [Hlo Hhi].
  destruct (Binary64Facts.leb_finite_l 10 d _ _ Prim2SF_10 Hlo)
    as [Hi|(m & e & Hd & He)].
  - exfalso. rewrite leb_spec, Hi in Hhi. discriminate.
  - exists m, e. auto.
Qed.

(** A denominator at least [24.0 * 0.1] and below infinity is a normal
    positive number. *)
Lemma denominator_finite (den : float) :
  PrimFloat.leb (24 * 0.1) den = true ->
  PrimFloat.ltb den infinity = true ->
  exists m e, Prim2SF den = S754_finite false m e /\ -51 <= e <= 971.
Proof.
  intros Hden Hfin.
  destruct (Binary64Facts.leb_finite_l (24 * 0.1) den _ _ Prim2SF_floor Hden)
    as [Hi|(m & e & Hn & He)].
  - exfalso. now apply (Binary64Facts.ltb_infinity den).
  - pose proof (Binary64Facts.Prim2SF_bounded _ _ _ _ Hn) as V.
    apply Binary64Facts.bounded_canonical in V. destruct V as [_ He'].
    exists m, e. split; [exact Hn|lia].
Qed.

Lemma denominator_below_infinity (cl : float) :
  PrimFloat.ltb (24 * cl) infinity = true ->
  PrimFloat.ltb (24 * Py.max cl 0.1) infinity = true.
Proof.
  intros H. destruct (Binary64Facts.max_cases cl 0.1) as [[_ ->] | [_ ->]];
    [reflexivity|exact H].
Qed.

(** The denominator grows with the clearance. *)
Lemma denominator_mono (cl1 cl2 : float) :
  PrimFloat.leb cl1 cl2 = true ->
  PrimFloat.leb (24 * Py.max cl1 0.1) (24 * Py.max cl2 0.1) = true.
Proof.
  intros Hle. destruct (Binary64Order.leb_not_nan _ _ Hle) as [N1 N2].
  destruct (Binary64Facts.max_cases cl2 0.1) as [[L2 E2] | [L2 E2]].
  - assert (L1 : PrimFloat.ltb cl1 0.1 = true)
      by (eapply Binary64Order.leb_ltb_trans; eassumption).
    unfold Py.max. rewrite L1, L2. reflexivity.
  - destruct (Binary64Facts.max_cases cl1 0.1) as [[L1 E1] | [L1 E1]].
    + rewrite E1. now apply denominator_floor.
    + rewrite E1, E2.
      assert (G1 : PrimFloat.leb 0.1 cl1 = true)
        by (apply Binary64Facts.leb_of_ltb_false; [exact N1|reflexivity|exact L1]).
      assert (G2 : PrimFloat.leb 0.1 cl2 = true)
        by (apply Binary64Facts.leb_of_ltb_false; [exact N2|reflexivity|exact L2]).
      destruct (Binary64Facts.leb_finite_l 0.1 cl2 _ _ Prim2SF_0_1 G2)
        as [I2|(m2 & e2 & H2 & _)];
        destruct (Binary64Facts.leb_finite_l 0.1 cl1 _ _ Prim2SF_0_1 G1)
          as [I1|(m1 & e1 & H1 & _)].
      * rewrite leb_spec, (mul_spec 24 cl1), (mul_spec 24 cl2), I1, I2.
        reflexivity.
      * rewrite leb_spec, (mul_spec 24 cl2), I2.
        pose proof (denominator_floor cl1 N1) as F. rewrite E1 in F.
        destruct (Binary64Facts.leb_finite_l (24 * 0.1) (24 * cl1) _ _
                    Prim2SF_floor F) as [-> | (m & e & -> & _)]; reflexivity.
      * exfalso. rewrite leb_spec, I1, H2 in Hle. discriminate.
      * exact (Binary64Facts.mul_mono 24 cl1 cl2 _ _ _ _ _ _
                 Prim2SF_24 H1 H2 Hle).
Qed.

(** X3: for a clearance whose product with 24.0 stays below infinity, a
    larger dose of the widget never gives a smaller theoretical
    concentration. *)
Theorem theoretical_conc_grows_with_dose (cl d1 d2 : float) :
  PrimFloat.ltb (24 * cl) infinity = true ->
  between 10 800 d1 = true -> between 10 800 d2 = true ->
  PrimFloat.leb d1 d2 = true ->
  exists r1 r2,
    calculate_theoretical_conc cl d1 = Ok r1 /\
    calculate_theoretical_conc cl d2 = Ok r2 /\
    PrimFloat.leb r1 r2 = true.
Proof.
  intros Hfin B1 B2 Hle.
  pose proof (not_nan_of_finite_product cl Hfin) as Hn.
  destruct (dose_finite d1 B1) as (m1 & e1 & H1 & L1).
  destruct (dose_finite d2 B2) as (m2 & e2 & H2 & L2).
  destruct (denominator_finite _ (denominator_floor cl Hn)
              (denominator_below_infinity cl Hfin)) as (mn & en & Hd & Hen).
  do 2 eexists. rewrite !calculate_theoretical_conc_ok.
  split; [reflexivity|]. split; [reflexivity|].
  apply (Binary64Facts.div_mono _ _ _ _ _ _ _ _ _ _ _ _ H1 Hd H2 Hd);
    try lia; [exact Hle|].
  exact (Binary64Facts.leb_refl_finite _ _ _ Hd).
Qed.

(** X4: for a dose of the widget, a larger clearance never gives a larger
    theoretical concentration, as long as 24.0 times the larger clearance
    stays below infinity. *)
Theorem theoretical_conc_falls_with_clearance (cl1 cl2 d : float) :
  PrimFloat.leb cl1 cl2 = true ->
  PrimFloat.ltb (24 * cl2) infinity = true ->
  between 10 800 d = true ->
  exists r1 r2,
    calculate_theoretical_conc cl1 d = Ok r1 /\
    calculate_theoretical_conc cl2 d = Ok r2 /\
    PrimFloat.leb r2 r1 = true.
Proof.
  intros Hle Hfin B.
  destruct (Binary64Order.leb_not_nan _ _ Hle) as [N1 N2].
  destruct (dose_finite d B) as (m & e & Hd & L).
  pose proof (denominator_mono cl1 cl2 Hle) as Hm.
  destruct (denominator_finite _ (denominator_floor cl2 N2)
              (denominator_below_infinity cl2 Hfin)) as (m2 & e2 & H2 & He2).
  assert (F1 : PrimFloat.ltb (24 * Py.max cl1 0.1) infinity = true)
    by (eapply Binary64Order.leb_ltb_trans;
        [exact Hm|exact (denominator_below_infinity cl2 Hfin)]).
  destruct (denominator_finite _ (denominator_floor cl1 N1) F1)
    as (m1 & e1 & H1 & He1).
  do 2 eexists. rewrite !calculate_theoretical_conc_ok.
  split; [reflexivity|]. split; [reflexivity|].
  apply (Binary64Facts.div_mono _ _ _ _ _ _ _ _ _ _ _ _ Hd H2 Hd H1);
    try lia; [|exact Hm].
  exact (Binary64Facts.leb_refl_finite _ _ _ Hd).
Qed.

Lemma leb_of_ltb (x y : float) :
  PrimFloat.ltb x y = true -> PrimFloat.leb x y = true.
Proof.
  rewrite leb_spec, ltb_spec. intros H.
  destruct (Binary64Facts.SFltb_not_nan _ _ H) as [Nx Ny].
  apply Binary64Facts.SFltb_key in H; try assumption.
  apply Binary64Facts.SFleb_key; try assumption. now left.
Qed.

Lemma Prim2SF_800 : Prim2SF 800 = S754_finite false 7036874417766400 (-43).
Proof. reflexivity. Qed.

(** X5: for a clearance that is a number and a dose of the widget, the
    theoretical concentration is a number between 0 and 800 / 2.4 =
    333.33333333333337, whatever the clearance. *)
Theorem theoretical_conc_range (cl d : float) :
  PrimFloat.is_nan cl = false ->
  between 10 800 d = true ->
  exists r,
    calculate_theoretical_conc cl d = Ok r /\
    PrimFloat.leb 0 r = true /\
    PrimFloat.leb r 333.33333333333337 = true.
Proof.
  intros Hn B. exists (d / (24 * Py.max cl 0.1))%float.
  split; [apply calculate_theoretical_conc_ok|].
  destruct (dose_finite d B) as (m & e & Hd & L).
  pose proof (denominator_floor cl Hn) as F.
  destruct (Binary64Facts.leb_finite_l (24 * 0.1) _ _ _ Prim2SF_floor F)
    as [Hi|(mn & en & Hden & Hen)].
  - rewrite !leb_spec, div_spec, Hd, Hi. split; reflexivity.
  - assert (Hfin : PrimFloat.ltb (24 * Py.max cl 0.1) infinity = true)
      by (rewrite ltb_spec, Hden; reflexivity).
    destruct (quotient_bounds d _ B F Hfin) as [Hpos Hup].
    split; [now apply leb_of_ltb|].
    eapply Binary64Facts.leb_trans; [exact Hup|].
    change 333.33333333333337%float with (800 / 2.4)%float.
    assert (Hhi : PrimFloat.leb d 800 = true)
      by (unfold between in B; apply andb_true_iff in B; apply B).
    apply (Binary64Facts.div_mono d 2.4 800 2.4 _ _ _ _ _ _ _ _
             Hd Prim2SF_2_4 Prim2SF_800 Prim2SF_2_4); try lia;
      [exact Hhi|reflexivity].
Qed.

(** X6: a clearance of [+infinity] gives a theoretical concentration of
    exactly 0.0, for every dose of the widget. *)
Theorem infinite_clearance_gives_zero (d : float) :
  between 10 800 d = true ->
  calculate_theoretical_conc infinity d = Ok 0%float.
Proof.
  intros B. rewrite calculate_theoretical_conc_ok. f_equal.
  destruct (dose_finite d B) as (m & e & Hd & _).
  apply Prim2SF_inj. rewrite div_spec, Hd. reflexivity.
Qed.

(** X7: a clearance that is NaN passes the clamp: for every dose the
    theoretical concentration is NaN, and nothing is raised. *)
Theorem nan_clearance_gives_nan (cl d : float) :
  PrimFloat.is_nan cl = true ->
  calculate_theoretical_conc cl d = Ok nan.
Proof.
  intros H. apply Binary64Order.is_nan_true in H. subst cl.
  rewrite calculate_theoretical_conc_ok. f_equal.
  apply Prim2SF_inj. rewrite div_spec.
  change (Prim2SF (24 * Py.max nan 0.1)) with S754_nan.
  destruct (Prim2SF d) as [s|s| |s m e]; reflexivity.
Qed.

Lemma theoretical_conc_grows_with_dose_witness :
  exists r1 r2,
    calculate_theoretical_conc 0.5 200 = Ok r1 /\
    calculate_theoretical_conc 0.5 400 = Ok r2 /\
    PrimFloat.leb r1 r2 = true.
Proof.
  apply (theoretical_conc_grows_with_dose 0.5 200 400); reflexivity.
Defined.

Lemma theoretical_conc_falls_with_clearance_witness :
  exists r1 r2,
    calculate_theoretical_conc 0.5 400 = Ok r1 /\
    calculate_theoretical_conc 2 400 = Ok r2 /\
    PrimFloat.leb r2 r1 = true.
Proof.
  apply (theoretical_conc_falls_with_clearance 0.5 2 400); reflexivity.
Defined.

Lemma theoretical_conc_range_witness :
  exists r,
    calculate_theoretical_conc (-3) 800 = Ok r /\
    PrimFloat.leb 0 r = true /\
    PrimFloat.leb r 333.33333333333337 = true.
Proof.
  apply (theoretical_conc_range (-3) 800); reflexivity.
Defined.

Lemma infinite_clearance_gives_zero_witness :
  calculate_theoretical_conc infinity 400 = Ok 0%float.
Proof.
  apply (infinite_clearance_gives_zero 400). reflexivity.
Defined.

Lemma nan_clearance_gives_nan_witness :
  calculate_theoretical_conc nan 400 = Ok nan.
Proof.
  apply (nan_clearance_gives_nan nan 400). reflexivity.
Defined.

End BackCalculationFacts.

(** ** The calibration step, value by value *)

Module CalibrationFacts.

Import Py App.

(** X2: what the floor does to the calibrator's first prediction: a value
    of at least 0.1 is reported as it is, a value below 0.1 (zero,
    negative, minus infinity) is reported as exactly 0.1. *)
Theorem calibrate_keeps_or_floors calibrator (theory raw : float)
    (rest : list float) :
  calibrator [[theory]] = Ok (raw :: rest) ->
  (PrimFloat.leb 0.1 raw = true -> calibrate calibrator theory = Ok raw) /\
  (PrimFloat.ltb raw 0.1 = true ->
   calibrate calibrator theory = Ok 0.1%float).
Proof.
  intros H. unfold calibrate. rewrite H. cbn [bind first]. unfold Py.max.
  split; intros Hc.
  - now rewrite (Binary64Order.ltb_false_of_leb raw 0.1 Hc).
  - now rewrite Hc.
Qed.

Lemma calibrate_keeps_or_floors_witness :
  (PrimFloat.leb 0.1 (-2) = true ->
   calibrate (Stub.calibrator (-2)) 33 = Ok (-2)%float) /\
  (PrimFloat.ltb (-2) 0.1 = true ->
   calibrate (Stub.calibrator (-2)) 33 = Ok 0.1%float).
Proof.
  apply (calibrate_keeps_or_floors (Stub.calibrator (-2)) 33 (-2) []).
  reflexivity.
Defined.

End CalibrationFacts.

(** ** The encodings outside the options of the select boxes *)

Module EncodingFacts.

Import Py App.

Lemma GenotypingValue_cases (l : string) :
  (l = "NM (Normal metabolizer)" /\ GenotypingValue l = Ok 1%Z) \/
  (l = "IM (Intermediate metabolizer)" /\ GenotypingValue l = Ok 2%Z) \/
  (l = "PM (Poor metabolizer)" /\ GenotypingValue l = Ok 3%Z) \/
  (~ In l geno_options /\ GenotypingValue l = Raise (KeyError l)).
Proof.
  unfold GenotypingValue, getitem, geno_map, geno_options. cbn [get].
  destruct (String.eqb_spec l "NM (Normal metabolizer)") as [->|H1];
    [now left|].
  destruct (String.eqb_spec l "IM (Intermediate metabolizer)") as [->|H2];
    [right; now left|].
  destruct (String.eqb_spec l "PM (Poor metabolizer)") as [->|H3];
    [right; right; now left|].
  right; right; right. split; [|reflexivity].
  simpl. intros [E|[E|[E|[]]]]; congruence.
Qed.


End EncodingFacts.

(** ** The estimation as a whole *)

Module PipelineFacts.

Import Py App.

Lemma input_row_ok (w : sidebar) :
  In (geno_label w) geno_options -> exists row, input_row w = Ok row.
Proof.
  intros H. unfold input_row.
  destruct (EncodingFacts.GenotypingValue_cases (geno_label w))
    as [[_ E]|[[_ E]|[[_ E]|[N _]]]];
    try (rewrite E; eexists; reflexivity).
  contradiction.
Qed.

(** X9: how the steps compose: with a label of the select box, a
    clearance model and a calibrator that each answer at least one prediction, the
    estimation succeeds; the clearance is the model's first prediction, the
    calibrator is asked about the back-calculated quotient, and the
    concentration is the floored first answer of the calibrator. *)
Theorem estimation_result model_cl calibrator (w : sidebar)
    (row : Pd.DataFrame) (cl raw : float) (rest rest' : list float) :
  input_row w = Ok row ->
  model_cl row = Ok (cl :: rest) ->
  calibrator [[(daydose w / (24 * Py.max cl 0.1))%float]] = Ok (raw :: rest') ->
  estimation model_cl calibrator w =
    Ok {| pred_cl := cl;
          theory_conc := (daydose w / (24 * Py.max cl 0.1))%float;
          pred_conc := Py.max raw 0.1 |}.
Proof.
  intros Hrow Hm Hc. unfold estimation, clearance.
  rewrite Hrow. cbn [bind]. rewrite Hm. cbn [bind first].
  rewrite BackCalculation.calculate_theoretical_conc_ok. cbn [bind].
  unfold calibrate. rewrite Hc. reflexivity.
Qed.

Lemma estimation_result_witness :
  estimation (Stub.model_cl 0.5) (Stub.calibrator 3) scenario =
    Ok {| pred_cl := 0.5;
          theory_conc := (400 / (24 * Py.max 0.5 0.1))%float;
          pred_conc := Py.max 3 0.1 |}.
Proof.
  apply (estimation_result (Stub.model_cl 0.5) (Stub.calibrator 3) scenario
           (input_row_of (record 1 scenario)) 0.5 3 [] []); reflexivity.
Defined.

(** A successful estimation is made of a row and of a first prediction of
    each model. *)
Lemma estimation_ok_inv model_cl calibrator (w : sidebar) (e : estimate) :
  estimation model_cl calibrator w = Ok e ->
  exists row cl rest raw rest',
    input_row w = Ok row /\
    model_cl row = Ok (cl :: rest) /\
    calibrator [[(daydose w / (24 * Py.max cl 0.1))%float]]
      = Ok (raw :: rest') /\
    e = {| pred_cl := cl;
           theory_conc := (daydose w / (24 * Py.max cl 0.1))%float;
           pred_conc := Py.max raw 0.1 |}.
Proof.
  unfold estimation, clearance.
  destruct (input_row w) as [row|x]; cbn [bind]; [|discriminate].
  destruct (model_cl row) as [[|cl rest]|x] eqn:Hm; cbn [bind first];
    try discriminate.
  rewrite BackCalculation.calculate_theoretical_conc_ok. cbn [bind].
  unfold calibrate.
  destruct (calibrator [[(daydose w / (24 * Py.max cl 0.1))%float]])
    as [[|raw rest']|x] eqn:Hc; cbn [bind first]; try discriminate.
  intros H. exists row, cl, rest, raw, rest'.
  split; [reflexivity|]. split; [exact Hm|]. split; [exact Hc|].
  apply (f_equal (fun r => match r with Ok v => v | Raise _ => e end)) in H.
  now symmetry.
Qed.

(** X1: the concentration an estimation reports is NaN or at least 0.1. *)
Theorem reported_conc_is_nan_or_floored model_cl calibrator (w : sidebar)
    (e : estimate) :
  estimation model_cl calibrator w = Ok e ->
  PrimFloat.is_nan (pred_conc e) = false ->
  PrimFloat.leb 0.1 (pred_conc e) = true.
Proof.
  intros H. destruct (estimation_ok_inv _ _ _ _ H)
    as (row & cl & rest & raw & rest' & _ & _ & _ & ->).
  cbn [pred_conc].
  destruct (Binary64Facts.max_cases raw 0.1) as [[_ ->] | [L ->]].
  - reflexivity.
  - intros Hn. apply Binary64Facts.leb_of_ltb_false;
      [exact Hn|reflexivity|exact L].
Qed.

Lemma reported_conc_is_nan_or_floored_witness :
  PrimFloat.leb 0.1
    (pred_conc {| pred_cl := 0.5; theory_conc := 33.333333333333336;
                  pred_conc := 0.1 |}) = true.
Proof.
  apply (reported_conc_is_nan_or_floored (Stub.model_cl 0.5)
           (Stub.calibrator (-2)) scenario); reflexivity.
Defined.

(** X10: where an exception of the estimation comes from, when a
    prediction is a one-dimensional array of floats (on an element that is
    not a number [float()] would raise as well, which is outside this
    model): with a label of the select box, it is the exception of one of
    the two model calls, or the IndexError of taking the first element of an
    empty answer.  The arithmetic of the script adds none: the division
    never raises. *)
Theorem estimation_errors model_cl calibrator (w : sidebar) (x : exn) :
  In (geno_label w) geno_options ->
  estimation model_cl calibrator w = Raise x ->
  exists row,
    input_row w = Ok row /\
    (model_cl row = Raise x \/
     (model_cl row = Ok [] /\ x = IndexError) \/
     exists cl rest,
       model_cl row = Ok (cl :: rest) /\
       (calibrator [[(daydose w / (24 * Py.max cl 0.1))%float]] = Raise x \/
        (calibrator [[(daydose w / (24 * Py.max cl 0.1))%float]] = Ok [] /\
         x = IndexError))).
Proof.
  intros Hl. destruct (input_row_ok w Hl) as [row Hrow].
  unfold estimation, clearance. rewrite Hrow. cbn [bind].
  intros H. exists row. split; [reflexivity|].
  destruct (model_cl row) as [[|cl rest]|e]; cbn [bind first] in H.
  - right; left. split; [reflexivity|]. now injection H as <-.
  - right; right. exists cl, rest. split; [reflexivity|].
    rewrite BackCalculation.calculate_theoretical_conc_ok in H.
    cbn [bind] in H. unfold calibrate in H.
    destruct (calibrator [[(daydose w / (24 * Py.max cl 0.1))%float]])
      as [[|raw rest']|e]; cbn [bind first] in H.
    + right. split; [reflexivity|]. now injection H as <-.
    + discriminate.
    + left. now injection H as <-.
  - left. now injection H as <-.
Qed.

Lemma estimation_errors_witness :
  exists row,
    input_row scenario = Ok row /\
    (Stub.model_cl 0.5 row = Raise (Raised "ValueError") \/
     (Stub.model_cl 0.5 row = Ok [] /\ Raised "ValueError" = IndexError) \/
     exists cl rest,
       Stub.model_cl 0.5 row = Ok (cl :: rest) /\
       (Stub.failing "ValueError"
          [[(daydose scenario / (24 * Py.max cl 0.1))%float]]
        = Raise (Raised "ValueError") \/
        (Stub.failing "ValueError"
           [[(daydose scenario / (24 * Py.max cl 0.1))%float]] = Ok [] /\
         Raised "ValueError" = IndexError))).
Proof.
  apply (estimation_errors (Stub.model_cl 0.5) (Stub.failing "ValueError")
           scenario (Raised "ValueError")).
  - simpl. auto.
  - reflexivity.
Defined.






End PipelineFacts.
